(** * Activation conditions of gremlin/base_classes.py

    A shallow embedding of the condition classes of [gremlin.base_classes]
    (KeyboardCondition, JoystickCondition, VJoyCondition,
    InputActionCondition and the composite ActivationCondition) together
    with their XML reading and writing, followed by the properties the
    specification states about them. *)

From Stdlib Require Import ZArith NArith String Ascii List.
From Stdlib Require Import Strings.Byte.
From Stdlib Require Import DecimalString DecimalZ DecimalPos.
From stdpp Require Import base option list strings gmap.

Local Open Scope string_scope.
Local Open Scope list_scope.

(** ** Python built-ins used by the module *)

Module Py.

(** [str(n)] for an [int]: the decimal numeral, with a leading minus sign
    for negative numbers. *)
Definition str_int (z : Z) : string :=
  NilZero.string_of_int (Z.to_int z).

(** [int(s)] on the decimal numerals: an optional minus sign followed by
    at least one digit. [None] stands for [ValueError]. (Python also
    accepts surrounding white space, a plus sign and underscores between
    digits; no value written by this module uses them.) *)
Definition int (s : string) : option Z :=
  Z.of_int <$> NilZero.int_of_string s.

(** [str(b)] for a [bool]. *)
Definition str_bool (b : bool) : string :=
  if b then "True" else "False".

(** [str(None)]. *)
Definition str_None : string := "None".

Definition lower_ascii (c : ascii) : ascii :=
  let n := N_of_ascii c in
  if ((65 <=? n) && (n <=? 90))%N then ascii_of_N (n + 32) else c.

(** [s.lower()] on ASCII text. *)
Fixpoint lower (s : string) : string :=
  match s with
  | EmptyString => EmptyString
  | String c r => String (lower_ascii c) (lower r)
  end.

(** Python's [float]. The binary64 values and the text [str] prints for
    them are not rebuilt here: the development is parametric in a type
    of floats that offers the literal [0.0], the test for NaN, [str(x)]
    and [float(s)] ([None] for [ValueError]). What is relied upon is that
    [float(str(x))] is [x] for every [x] that is not a NaN. Nothing is
    assumed of a NaN: [float] accepts ["nan"] and ["-nan"] and [str]
    prints ["nan"] for both, and a NaN is different from itself. *)
Class Float := {
  float : Type;
  float_zero : float;
  is_nan : float -> bool;
  str_float : float -> string;
  to_float : string -> option float;
  to_float_str : forall x, is_nan x = false -> to_float (str_float x) = Some x
}.

End Py.

(** ** Exceptions *)

(** Why a [SchemaError] was raised. *)
Inductive SchemaReason := Missing | Malformed | UnknownEnumValue.

(** The exceptions that can leave the functions below. [SchemaError] is
    the error of the helpers of [gremlin.util] and [gremlin.types];
    [KeyError] is what subscripting a [dict] with an absent key raises;
    [LookupFailure] is whatever [InputType.to_string] raises on a value
    that is no member of the enumeration ([None]); [TypeError] is what
    Python raises for an argument of a type a function cannot handle. *)
Inductive Exception :=
| SchemaError (reason : SchemaReason) (subject : string)
| KeyError (key : string)
| LookupFailure
| TypeError.

Inductive result (A : Type) :=
| Ok (a : A)
| Raise (e : Exception).
Arguments Ok {A} a.
Arguments Raise {A} e.

#[global] Instance result_ret : MRet result := @Ok.
#[global] Instance result_bind : MBind result := fun A B f m =>
  match m with
  | Ok a => f a
  | Raise e => Raise e
  end.
#[global] Instance result_fmap : FMap result := fun A B f m =>
  match m with
  | Ok a => Ok (f a)
  | Raise e => Raise e
  end.

Definition is_schema_error {A} (r : result A) : bool :=
  match r with
  | Raise (SchemaError _ _) => true
  | _ => false
  end.

Definition is_ok {A} (r : result A) : bool :=
  match r with
  | Ok _ => true
  | Raise _ => false
  end.

(** ** xml.etree.ElementTree elements *)

(** An element: its tag, its attribute dictionary and its children in
    document order. *)
#[warnings="-register-all"]
Inductive XmlNode := mkElement {
  tag : string;
  attrib : gmap string string;
  children : list XmlNode
}.

Module ElementTree.

(** [ElementTree.Element(tag)] *)
Definition Element (t : string) : XmlNode := mkElement t ∅ [].

(** [node.set(key, value)] *)
Definition set (node : XmlNode) (key value : string) : XmlNode :=
  mkElement (tag node) (<[key := value]> (attrib node)) (children node).

(** [node.get(key)]: [None] when the attribute is absent. *)
Definition get (node : XmlNode) (key : string) : option string :=
  attrib node !! key.

(** [node.append(child)] *)
Definition append (node child : XmlNode) : XmlNode :=
  mkElement (tag node) (attrib node) (children node ++ [child]).

(** [node.findall(t)]: the direct children with tag [t], in document
    order. *)
Definition findall (node : XmlNode) (t : string) : list XmlNode :=
  filter (fun c => tag c = t) (children node).

End ElementTree.

(** ** gremlin.types *)

Module InputType.

(** Modelled from the spec: [gremlin.types] is not part of the sources at
    hand. The input-type tag is a closed enumeration; each member has a
    canonical lower-case string used in XML ([axis], [button], [hat],
    [keyboard]). *)
Inductive t := JoystickAxis | JoystickButton | JoystickHat | Keyboard.

#[global] Instance input_type_eq_dec : EqDecision t.
Proof. solve_decision. Defined.

(** Modelled from the spec: [InputType.to_string] on a member of the
    enumeration. Encoding is total there. *)
Definition member_string (v : t) : string :=
  match v with
  | JoystickAxis => "axis"
  | JoystickButton => "button"
  | JoystickHat => "hat"
  | Keyboard => "keyboard"
  end.

(** Modelled from the spec: [InputType.to_string(value)]. The conditions
    pass their [input_type] field, which is [None] until it is set; [None]
    is no member of the enumeration and has no string form. *)
Definition to_string (value : option t) : result string :=
  match value with
  | Some v => Ok (member_string v)
  | None => Raise LookupFailure
  end.

(** Modelled from the spec: [InputType.to_enum(value)]. Decoding fails with
    a [SchemaError] on an unknown string. *)
Definition to_enum (value : string) : result t :=
  if decide (value = "axis") then Ok JoystickAxis
  else if decide (value = "button") then Ok JoystickButton
  else if decide (value = "hat") then Ok JoystickHat
  else if decide (value = "keyboard") then Ok Keyboard
  else Raise (SchemaError UnknownEnumValue value).

End InputType.

Module ActivationRule.

(** Modelled from the spec: the two-valued activation rule. *)
Inductive t := All | Any.

#[global] Instance activation_rule_eq_dec : EqDecision t.
Proof. solve_decision. Defined.

End ActivationRule.

(** ** Device identifiers *)

(** A GUID: 128 bits, kept as its sixteen bytes in the order in which the
    canonical text form shows them. *)
Inductive Guid :=
| MkGuid (b0 b1 b2 b3 b4 b5 b6 b7 b8 b9 b10 b11 b12 b13 b14 b15 : byte).

Module Hex.

Definition digit (n : N) : ascii :=
  match n with
  | 0 => "0" | 1 => "1" | 2 => "2" | 3 => "3" | 4 => "4" | 5 => "5"
  | 6 => "6" | 7 => "7" | 8 => "8" | 9 => "9" | 10 => "A" | 11 => "B"
  | 12 => "C" | 13 => "D" | 14 => "E" | _ => "F"
  end%N%char.

(** The value of a hexadecimal digit, in either case. *)
Definition value (c : ascii) : option N :=
  let n := N_of_ascii c in
  if ((48 <=? n) && (n <=? 57))%N then Some (n - 48)%N
  else if ((65 <=? n) && (n <=? 70))%N then Some (n - 55)%N
  else if ((97 <=? n) && (n <=? 102))%N then Some (n - 87)%N
  else None.

Definition hi (b : byte) : ascii := digit (Byte.to_N b / 16).
Definition lo (b : byte) : ascii := digit (Byte.to_N b mod 16).

(** Two digits for a byte. *)
Definition of_byte (b : byte) : string :=
  String (hi b) (String (lo b) EmptyString).

(** The byte two digits denote. *)
Definition to_byte (c1 c2 : ascii) : option byte :=
  h ← value c1; l ← value c2; Byte.of_N (16 * h + l).

End Hex.

(** Modelled from the spec: [str(guid)] of a [dill.GUID], the canonical
    8-4-4-4-12 form in braces. *)
Definition guid_str (g : Guid) : string :=
  match g with
  | MkGuid b0 b1 b2 b3 b4 b5 b6 b7 b8 b9 b10 b11 b12 b13 b14 b15 =>
      "{" +:+ Hex.of_byte b0 +:+ Hex.of_byte b1 +:+ Hex.of_byte b2
          +:+ Hex.of_byte b3 +:+ "-"
          +:+ Hex.of_byte b4 +:+ Hex.of_byte b5 +:+ "-"
          +:+ Hex.of_byte b6 +:+ Hex.of_byte b7 +:+ "-"
          +:+ Hex.of_byte b8 +:+ Hex.of_byte b9 +:+ "-"
          +:+ Hex.of_byte b10 +:+ Hex.of_byte b11 +:+ Hex.of_byte b12
          +:+ Hex.of_byte b13 +:+ Hex.of_byte b14 +:+ Hex.of_byte b15
          +:+ "}"
  end.

(** The GUID written by thirty-six characters in 8-4-4-4-12 form. *)
Definition guid_of_chars (l : list ascii) : option Guid :=
  match l with
  | [a0; a1; a2; a3; a4; a5; a6; a7; h1; c0; c1; c2; c3; h2;
     d0; d1; d2; d3; h3; e0; e1; e2; e3; h4;
     f0; f1; f2; f3; f4; f5; f6; f7; f8; f9; f10; f11] =>
      if decide (h1 = "-" /\ h2 = "-" /\ h3 = "-" /\ h4 = "-")%char then
        b0 ← Hex.to_byte a0 a1; b1 ← Hex.to_byte a2 a3;
        b2 ← Hex.to_byte a4 a5; b3 ← Hex.to_byte a6 a7;
        b4 ← Hex.to_byte c0 c1; b5 ← Hex.to_byte c2 c3;
        b6 ← Hex.to_byte d0 d1; b7 ← Hex.to_byte d2 d3;
        b8 ← Hex.to_byte e0 e1; b9 ← Hex.to_byte e2 e3;
        b10 ← Hex.to_byte f0 f1; b11 ← Hex.to_byte f2 f3;
        b12 ← Hex.to_byte f4 f5; b13 ← Hex.to_byte f6 f7;
        b14 ← Hex.to_byte f8 f9; b15 ← Hex.to_byte f10 f11;
        Some (MkGuid b0 b1 b2 b3 b4 b5 b6 b7 b8 b9 b10 b11 b12 b13 b14 b15)
      else None
  | _ => None
  end.

(** The canonical text of a GUID, with or without braces. *)
Definition guid_of_string (s : string) : option Guid :=
  match list_ascii_of_string s with
  | "{"%char :: r =>
      match rev r with
      | "}"%char :: body => guid_of_chars (rev body)
      | _ => None
      end
  | l => guid_of_chars l
  end.

(** ** gremlin.util *)

(** Modelled from the spec: [safe_read(node, key, type_cast)] of
    [gremlin.util], which is not part of the sources at hand. It returns
    the attribute's string value passed through the coercion, and fails
    with a [SchemaError] when the attribute is absent or the coercion
    rejects its text. *)
Definition safe_read {A} (node : XmlNode) (key : string)
    (type_cast : string -> option A) : result A :=
  match ElementTree.get node key with
  | None => Raise (SchemaError Missing key)
  | Some text =>
      match type_cast text with
      | Some v => Ok v
      | None => Raise (SchemaError Malformed key)
      end
  end.

(** [safe_read(node, key)]: no coercion, the text itself. *)
Definition safe_read_str (node : XmlNode) (key : string) : result string :=
  safe_read node key Some.

(** Modelled from the spec: [parse_bool(s)] accepts [true], [false], [1]
    and [0], in any case; every other text is a [SchemaError]. *)
Definition parse_bool (s : string) : result bool :=
  let l := Py.lower s in
  if decide (l = "true" \/ l = "1") then Ok true
  else if decide (l = "false" \/ l = "0") then Ok false
  else Raise (SchemaError Malformed s).

(** [parse_guid] handed [None]. The spec defines [parse_guid] on strings;
    [JoystickCondition.from_xml] hands it the outcome of [node.get], which
    is [None] for an absent attribute. What the helper does then, return
    a GUID or raise, and which exception, is in neither the sources at
    hand nor the spec: the development is parametric in it. The one thing
    taken for granted is that it is no [KeyError]. *)
Class ParseGuidNone := {
  parse_guid_None : result Guid;
  parse_guid_None_no_KeyError :
    forall key, parse_guid_None <> Raise (KeyError key)
}.

(** Modelled from the spec: [parse_guid(value)] accepts the canonical
    8-4-4-4-12 form with or without braces and fails with a [SchemaError]
    on any other string. *)
Definition parse_guid `{U : ParseGuidNone} (value : option string)
    : result Guid :=
  match value with
  | None => parse_guid_None
  | Some s =>
      match guid_of_string s with
      | Some g => Ok g
      | None => Raise (SchemaError Malformed s)
      end
  end.

(** ** The condition classes *)

(** [from_xml] assigns the fields of [self] one after the other; an
    exception leaves the method before the remaining assignments. The
    functions below return the object as a completed call leaves it, or
    the exception raised. *)

(** [str(x)] of a field that holds [None] until it is set. *)
Definition str_optional {A} (str : A -> string) (x : option A) : string :=
  match x with
  | Some a => str a
  | None => Py.str_None
  end.

Module AbstractCondition.

(** The state every condition inherits: the comparison string. *)
Record t := Build { comparison : string }.

Definition __init__ : t := {| comparison := "" |}.

(** [return self.comparison != ""] *)
Definition is_valid (self : t) : bool :=
  bool_decide (comparison self <> "").

End AbstractCondition.

Module KeyboardCondition.

Record t := Build {
  super : AbstractCondition.t;
  scan_code : option Z;
  is_extended : option bool
}.

Definition comparison (self : t) : string :=
  AbstractCondition.comparison (super self).

Definition __init__ : t :=
  {| super := AbstractCondition.__init__;
     scan_code := None;
     is_extended := None |}.

Definition from_xml (self : t) (node : XmlNode) : result t :=
  comparison ← safe_read_str node "comparison";
  scan_code ← safe_read node "scan-code" Py.int;
  extended ← safe_read_str node "extended";
  is_extended ← parse_bool extended;
  Ok {| super := AbstractCondition.Build comparison;
        scan_code := Some scan_code;
        is_extended := Some is_extended |}.

Definition to_xml (self : t) : result XmlNode :=
  let node := ElementTree.Element "condition" in
  let node := ElementTree.set node "condition-type" "keyboard" in
  let node := ElementTree.set node "input" "keyboard" in
  let node := ElementTree.set node "comparison" (comparison self) in
  let node := ElementTree.set node "scan-code"
                (str_optional Py.str_int (scan_code self)) in
  let node := ElementTree.set node "extended"
                (str_optional Py.str_bool (is_extended self)) in
  Ok node.

Definition is_valid (self : t) : bool :=
  AbstractCondition.is_valid (super self)
  && bool_decide (scan_code self <> None)
  && bool_decide (is_extended self <> None).

End KeyboardCondition.

(** The [device_guid] field of a joystick condition: the integer [0] the
    constructor stores, or the GUID that [from_xml] assigns. *)
Inductive DeviceGuid :=
| GuidUnset
| GuidValue (g : Guid).

(** [str(self.device_guid)] *)
Definition str_device_guid (d : DeviceGuid) : string :=
  match d with
  | GuidUnset => Py.str_int 0
  | GuidValue g => guid_str g
  end.

Module JoystickCondition.
Section WithFloat.
Context `{F : Py.Float} `{U : ParseGuidNone}.

(** [range] is the two-element list [[low, high]]. *)
Record t := Build {
  super : AbstractCondition.t;
  device_guid : DeviceGuid;
  input_type : option InputType.t;
  input_id : Z;
  range : Py.float * Py.float;
  device_name : string
}.

Definition comparison (self : t) : string :=
  AbstractCondition.comparison (super self).

Definition __init__ : t :=
  {| super := AbstractCondition.__init__;
     device_guid := GuidUnset;
     input_type := None;
     input_id := 0;
     range := (Py.float_zero, Py.float_zero);
     device_name := "" |}.

Definition from_xml (self : t) (node : XmlNode) : result t :=
  comparison ← safe_read_str node "comparison";
  input ← safe_read_str node "input";
  input_type ← InputType.to_enum input;
  input_id ← safe_read node "id" Py.int;
  device_guid ← parse_guid (ElementTree.get node "device-guid");
  device_name ← safe_read_str node "device-name";
  range ← (if decide (input_type = InputType.JoystickAxis) then
             low ← safe_read node "range-low" Py.to_float;
             high ← safe_read node "range-high" Py.to_float;
             Ok (low, high)
           else Ok (range self));
  Ok {| super := AbstractCondition.Build comparison;
        device_guid := GuidValue device_guid;
        input_type := Some input_type;
        input_id := input_id;
        range := range;
        device_name := device_name |}.

Definition to_xml (self : t) : result XmlNode :=
  let node := ElementTree.Element "condition" in
  let node := ElementTree.set node "comparison" (comparison self) in
  let node := ElementTree.set node "condition-type" "joystick" in
  input ← InputType.to_string (input_type self);
  let node := ElementTree.set node "input" input in
  let node := ElementTree.set node "id" (Py.str_int (input_id self)) in
  let node := ElementTree.set node "device-guid"
                (str_device_guid (device_guid self)) in
  let node := ElementTree.set node "device-name" (device_name self) in
  let node :=
    if decide (input_type self = Some InputType.JoystickAxis) then
      let node := ElementTree.set node "range-low"
                    (Py.str_float (fst (range self))) in
      ElementTree.set node "range-high" (Py.str_float (snd (range self)))
    else node in
  Ok node.

Definition is_valid (self : t) : bool :=
  AbstractCondition.is_valid (super self)
  && bool_decide (input_type self <> None).

End WithFloat.
End JoystickCondition.

Module VJoyCondition.
Section WithFloat.
Context `{F : Py.Float} `{U : ParseGuidNone}.

Record t := Build {
  super : AbstractCondition.t;
  vjoy_id : Z;
  input_type : option InputType.t;
  input_id : Z;
  range : Py.float * Py.float
}.

Definition comparison (self : t) : string :=
  AbstractCondition.comparison (super self).

Definition __init__ : t :=
  {| super := AbstractCondition.__init__;
     vjoy_id := 0;
     input_type := None;
     input_id := 0;
     range := (Py.float_zero, Py.float_zero) |}.

Definition from_xml (self : t) (node : XmlNode) : result t :=
  comparison ← safe_read_str node "comparison";
  input ← safe_read_str node "input";
  input_type ← InputType.to_enum input;
  input_id ← safe_read node "id" Py.int;
  vjoy_id ← safe_read node "vjoy-id" Py.int;
  range ← (if decide (input_type = InputType.JoystickAxis) then
             low ← safe_read node "range-low" Py.to_float;
             high ← safe_read node "range-high" Py.to_float;
             Ok (low, high)
           else Ok (range self));
  Ok {| super := AbstractCondition.Build comparison;
        vjoy_id := vjoy_id;
        input_type := Some input_type;
        input_id := input_id;
        range := range |}.

Definition to_xml (self : t) : result XmlNode :=
  let node := ElementTree.Element "condition" in
  let node := ElementTree.set node "comparison" (comparison self) in
  let node := ElementTree.set node "condition-type" "vjoy" in
  input ← InputType.to_string (input_type self);
  let node := ElementTree.set node "input" input in
  let node := ElementTree.set node "id" (Py.str_int (input_id self)) in
  let node := ElementTree.set node "vjoy-id" (Py.str_int (vjoy_id self)) in
  let node :=
    if decide (input_type self = Some InputType.JoystickAxis) then
      let node := ElementTree.set node "range-low"
                    (Py.str_float (fst (range self))) in
      ElementTree.set node "range-high" (Py.str_float (snd (range self)))
    else node in
  Ok node.

Definition is_valid (self : t) : bool :=
  AbstractCondition.is_valid (super self)
  && bool_decide (input_type self <> None).

End WithFloat.
End VJoyCondition.

Module InputActionCondition.

Record t := Build { super : AbstractCondition.t }.

Definition comparison (self : t) : string :=
  AbstractCondition.comparison (super self).

Definition __init__ : t := {| super := AbstractCondition.__init__ |}.

Definition from_xml (self : t) (node : XmlNode) : result t :=
  comparison ← safe_read_str node "comparison";
  Ok {| super := AbstractCondition.Build comparison |}.

Definition to_xml (self : t) : result XmlNode :=
  let node := ElementTree.Element "condition" in
  let node := ElementTree.set node "condition-type" "action" in
  let node := ElementTree.set node "input" "action" in
  let node := ElementTree.set node "comparison" (comparison self) in
  Ok node.

(** Inherited unchanged from [AbstractCondition]. *)
Definition is_valid (self : t) : bool :=
  AbstractCondition.is_valid (super self).

End InputActionCondition.

(** A condition object of any of the four classes; the methods dispatch on
    the class of the object. *)
Module Condition.
Section WithFloat.
Context `{F : Py.Float} `{U : ParseGuidNone}.

Inductive t :=
| OfKeyboard (c : KeyboardCondition.t)
| OfJoystick (c : JoystickCondition.t)
| OfVJoy (c : VJoyCondition.t)
| OfInputAction (c : InputActionCondition.t).

Definition comparison (self : t) : string :=
  match self with
  | OfKeyboard c => KeyboardCondition.comparison c
  | OfJoystick c => JoystickCondition.comparison c
  | OfVJoy c => VJoyCondition.comparison c
  | OfInputAction c => InputActionCondition.comparison c
  end.

Definition is_valid (self : t) : bool :=
  match self with
  | OfKeyboard c => KeyboardCondition.is_valid c
  | OfJoystick c => JoystickCondition.is_valid c
  | OfVJoy c => VJoyCondition.is_valid c
  | OfInputAction c => InputActionCondition.is_valid c
  end.

Definition to_xml (self : t) : result XmlNode :=
  match self with
  | OfKeyboard c => KeyboardCondition.to_xml c
  | OfJoystick c => JoystickCondition.to_xml c
  | OfVJoy c => VJoyCondition.to_xml c
  | OfInputAction c => InputActionCondition.to_xml c
  end.

Definition from_xml (self : t) (node : XmlNode) : result t :=
  match self with
  | OfKeyboard c => OfKeyboard <$> KeyboardCondition.from_xml c node
  | OfJoystick c => OfJoystick <$> JoystickCondition.from_xml c node
  | OfVJoy c => OfVJoy <$> VJoyCondition.from_xml c node
  | OfInputAction c => OfInputAction <$> InputActionCondition.from_xml c node
  end.

End WithFloat.
End Condition.

(** ** The composite *)

Module ActivationCondition.
Section WithFloat.
Context `{F : Py.Float} `{U : ParseGuidNone}.

(** [rule_lookup], from string to enumeration member. Subscripting the
    dictionary with any other string raises [KeyError]. *)
Definition rule_lookup (key : string) : result ActivationRule.t :=
  if decide (key = "all") then Ok ActivationRule.All
  else if decide (key = "any") then Ok ActivationRule.Any
  else Raise (KeyError key).

(** [rule_lookup], from enumeration member to string: the same dictionary
    holds both directions. *)
Definition rule_lookup_string (key : ActivationRule.t) : string :=
  match key with
  | ActivationRule.All => "all"
  | ActivationRule.Any => "any"
  end.

(** [condition_lookup[key]()]: a new object of the class registered under
    the key; [KeyError] for any other key. *)
Definition condition_lookup (key : string) : result Condition.t :=
  if decide (key = "keyboard") then
    Ok (Condition.OfKeyboard KeyboardCondition.__init__)
  else if decide (key = "joystick") then
    Ok (Condition.OfJoystick JoystickCondition.__init__)
  else if decide (key = "vjoy") then
    Ok (Condition.OfVJoy VJoyCondition.__init__)
  else if decide (key = "action") then
    Ok (Condition.OfInputAction InputActionCondition.__init__)
  else Raise (KeyError key).

Record t := Build {
  rule : ActivationRule.t;
  conditions : list Condition.t
}.

Definition __init__ (conditions : list Condition.t) (rule : ActivationRule.t)
    : t :=
  {| rule := rule; conditions := conditions |}.

(** The body of the loop of [from_xml], up to the [append]. *)
Definition read_condition (cond_node : XmlNode) : result Condition.t :=
  condition_type ← safe_read_str cond_node "condition-type";
  condition ← condition_lookup condition_type;
  Condition.from_xml condition cond_node.

(** The loop of [from_xml] over the [condition] children. It returns the
    list as the loop leaves it, and the exception that ended it early, if
    any. *)
Fixpoint from_xml_loop (conditions : list Condition.t)
    (cond_nodes : list XmlNode) : list Condition.t * option Exception :=
  match cond_nodes with
  | [] => (conditions, None)
  | cond_node :: rest =>
      match read_condition cond_node with
      | Ok condition => from_xml_loop (conditions ++ [condition]) rest
      | Raise e => (conditions, Some e)
      end
  end.

(** [from_xml] updates the object in place: the result is the object as
    the call leaves it, and the exception raised, if any. *)
Definition from_xml (self : t) (node : XmlNode) : t * option Exception :=
  match (key ← safe_read_str node "rule"; rule_lookup key) with
  | Raise e => (self, Some e)
  | Ok rule =>
      let '(conditions, e) :=
        from_xml_loop (conditions self)
          (ElementTree.findall node "condition") in
      ({| rule := rule; conditions := conditions |}, e)
  end.

Fixpoint to_xml_loop (node : XmlNode) (conditions : list Condition.t)
    : result XmlNode :=
  match conditions with
  | [] => Ok node
  | condition :: rest =>
      if Condition.is_valid condition then
        child ← Condition.to_xml condition;
        to_xml_loop (ElementTree.append node child) rest
      else to_xml_loop node rest
  end.

Definition to_xml (self : t) : result XmlNode :=
  let node := ElementTree.Element "activation-condition" in
  let node := ElementTree.set node "rule" (rule_lookup_string (rule self)) in
  to_xml_loop node (conditions self).

(** Reading a node into a new, empty composite, the way the owners of an
    activation condition load it:
    [ActivationCondition([], ActivationRule.All).from_xml(node)]. *)
Definition decode (node : XmlNode) : result t :=
  match from_xml (__init__ [] ActivationRule.All) node with
  | (self, None) => Ok self
  | (_, Some e) => Raise e
  end.

Section Evaluator.
Variable Oracle : Type.
Variable evaluate_condition : Condition.t -> Oracle -> bool.

(** Modelled from the spec: [evaluate(oracle)], which the sources at hand
    do not contain. For [All] it is the conjunction of the children's
    outcomes, for [Any] their disjunction. What a single child answers is
    left to [evaluate_condition]. *)
Definition evaluate (self : t) (oracle : Oracle) : bool :=
  match rule self with
  | ActivationRule.All =>
      forallb (fun c => evaluate_condition c oracle) (conditions self)
  | ActivationRule.Any =>
      existsb (fun c => evaluate_condition c oracle) (conditions self)
  end.

End Evaluator.

End WithFloat.
End ActivationCondition.

(** * Notions used to state the properties *)

(** A computation that ends normally or with a [SchemaError]. *)
Definition schema_only {A} (r : result A) : bool :=
  match r with
  | Ok _ | Raise (SchemaError _ _) => true
  | Raise _ => false
  end.

(** The node without its two range attributes. *)
Definition without_range (node : XmlNode) : XmlNode :=
  mkElement (tag node)
    (delete "range-low" (delete "range-high" (attrib node)))
    (children node).

Section Notions.
Context `{F : Py.Float} `{U : ParseGuidNone}.

(** The attributes of a [condition] element that the reader of each class
    needs, as the specification lists them. *)
Definition required_attributes (c : Condition.t) : list string :=
  match c with
  | Condition.OfKeyboard _ => ["comparison"; "scan-code"; "extended"]
  | Condition.OfJoystick _ =>
      ["comparison"; "input"; "id"; "device-guid"; "device-name"]
  | Condition.OfVJoy _ => ["comparison"; "input"; "id"; "vjoy-id"]
  | Condition.OfInputAction _ => ["comparison"]
  end.

(** A new object of the class of [c]. *)
Definition new_instance (c : Condition.t) : Condition.t :=
  match c with
  | Condition.OfKeyboard _ => Condition.OfKeyboard KeyboardCondition.__init__
  | Condition.OfJoystick _ => Condition.OfJoystick JoystickCondition.__init__
  | Condition.OfVJoy _ => Condition.OfVJoy VJoyCondition.__init__
  | Condition.OfInputAction _ =>
      Condition.OfInputAction InputActionCondition.__init__
  end.

(** The four objects the constructors build. *)
Definition fresh_conditions : list Condition.t :=
  [ Condition.OfKeyboard KeyboardCondition.__init__;
    Condition.OfJoystick JoystickCondition.__init__;
    Condition.OfVJoy VJoyCondition.__init__;
    Condition.OfInputAction InputActionCondition.__init__ ].

(** What a condition needs, beyond validity, for its XML form to read back
    as the same object: a joystick condition must hold a GUID, not the
    constructor's integer, and a range that is not written (the input is
    no axis) must be the one a new object starts with. *)
Definition reloadable (c : Condition.t) : Prop :=
  match c with
  | Condition.OfJoystick j =>
      (exists g, JoystickCondition.device_guid j = GuidValue g) /\
      (JoystickCondition.input_type j <> Some InputType.JoystickAxis ->
       JoystickCondition.range j
       = JoystickCondition.range JoystickCondition.__init__)
  | Condition.OfVJoy v =>
      VJoyCondition.input_type v <> Some InputType.JoystickAxis ->
      VJoyCondition.range v = VJoyCondition.range VJoyCondition.__init__
  | _ => True
  end.

(** The bounds of the range of an axis condition are no NaN. Only these
    ranges are written, and a NaN does not read back as itself. *)
Definition range_not_nan (c : Condition.t) : Prop :=
  match c with
  | Condition.OfJoystick j =>
      JoystickCondition.input_type j = Some InputType.JoystickAxis ->
      Py.is_nan (JoystickCondition.range j).1 = false /\
      Py.is_nan (JoystickCondition.range j).2 = false
  | Condition.OfVJoy v =>
      VJoyCondition.input_type v = Some InputType.JoystickAxis ->
      Py.is_nan (VJoyCondition.range v).1 = false /\
      Py.is_nan (VJoyCondition.range v).2 = false
  | _ => True
  end.

(** The range attributes go with the axis input type, for a class given by
    its writer, its reader and its two fields: the writer sets both
    attributes exactly when the input type is the axis; a completed read
    took the range from the two attributes when the input read is the
    axis, and left the range of the object alone otherwise; a node whose
    input is no axis reads the same with and without the attributes; a
    node whose input is the axis does not read without them. *)
Definition range_follows_axis {T : Type}
    (to_xml : T -> result XmlNode) (from_xml : T -> XmlNode -> result T)
    (input_type : T -> option InputType.t)
    (range : T -> Py.float * Py.float) : Prop :=
  (forall c node,
     to_xml c = Ok node ->
     (is_Some (ElementTree.get node "range-low")
      <-> input_type c = Some InputType.JoystickAxis) /\
     (is_Some (ElementTree.get node "range-high")
      <-> input_type c = Some InputType.JoystickAxis)) /\
  (forall self node c,
     from_xml self node = Ok c ->
     if decide (input_type c = Some InputType.JoystickAxis)
     then safe_read node "range-low" Py.to_float = Ok (range c).1 /\
          safe_read node "range-high" Py.to_float = Ok (range c).2
     else range c = range self) /\
  (forall self node,
     ElementTree.get node "input" <> Some "axis" ->
     from_xml self (without_range node) = from_xml self node) /\
  (forall self node,
     ElementTree.get node "input" = Some "axis" ->
     ElementTree.get node "range-low" = None
     \/ ElementTree.get node "range-high" = None ->
     is_ok (from_xml self node) = false).

(** The range attributes are written and read, for a class given as for
    [range_follows_axis] and by what an object needs beside its input
    type for its node to read ([ready]): an object with an input type is
    written, with the text of its two bounds in the two attributes when
    the input type is the axis and without the two attributes otherwise;
    the node written for a ready object that is no axis reads, into any
    object, as that input type with the range the object had; the node
    written for a ready axis object whose bounds are no NaN reads as that
    object. *)
Definition range_written_and_read {T : Type}
    (to_xml : T -> result XmlNode) (from_xml : T -> XmlNode -> result T)
    (input_type : T -> option InputType.t)
    (range : T -> Py.float * Py.float) (ready : T -> Prop) : Prop :=
  (forall c ty,
     input_type c = Some ty ->
     exists node,
       to_xml c = Ok node /\
       ElementTree.get node "range-low"
       = (if decide (ty = InputType.JoystickAxis)
          then Some (Py.str_float (range c).1) else None) /\
       ElementTree.get node "range-high"
       = (if decide (ty = InputType.JoystickAxis)
          then Some (Py.str_float (range c).2) else None)) /\
  (forall self c ty,
     input_type c = Some ty -> ty <> InputType.JoystickAxis -> ready c ->
     exists node c',
       to_xml c = Ok node /\
       from_xml self node = Ok c' /\
       input_type c' = Some ty /\
       range c' = range self) /\
  (forall self c,
     input_type c = Some InputType.JoystickAxis -> ready c ->
     Py.is_nan (range c).1 = false -> Py.is_nan (range c).2 = false ->
     exists node, to_xml c = Ok node /\ from_xml self node = Ok c).

End Notions.

(** ** Floats with an integral value, and NaN *)

(** The floats whose value is an integer, with the text Python prints for
    them ([str(2.0)] is ["2.0"]), and the two NaN that differ in the sign
    bit: [float("nan")] and [float("-nan")], both printed as ["nan"].
    They instantiate [Py.Float] where a concrete condition is needed. *)
Module IntegralFloat.

Definition str_float (z : Z) : string := Py.str_int z +:+ ".0".

(** [s] without the [".0"] it ends with, if it does. *)
Fixpoint strip_point_zero (s : string) : option string :=
  match s with
  | EmptyString => None
  | String c r =>
      if String.eqb s ".0" then Some EmptyString
      else String c <$> strip_point_zero r
  end.

Definition to_float (s : string) : option Z :=
  strip_point_zero s ≫= Py.int.

Inductive t :=
| Finite (z : Z)
| NaN (negative : bool).

Definition is_nan (x : t) : bool :=
  match x with
  | Finite _ => false
  | NaN _ => true
  end.

(** [str(x)] *)
Definition str (x : t) : string :=
  match x with
  | Finite z => str_float z
  | NaN _ => "nan"
  end.

(** [float(s)] *)
Definition of_str (s : string) : option t :=
  if decide (s = "nan") then Some (NaN false)
  else if decide (s = "-nan") then Some (NaN true)
  else Finite <$> to_float s.

End IntegralFloat.

(** What stands for [parse_guid(None)] where a concrete condition is
    needed: a [TypeError]. *)
Definition parse_guid_None_raises : result Guid := Raise TypeError.

(** ** Notions for the further properties *)

(** A computation that does not end with a [KeyError]. *)
Definition no_key_error {A} (r : result A) : bool :=
  match r with
  | Raise (KeyError _) => false
  | _ => true
  end.

Section FurtherNotions.
Context `{F : Py.Float} `{U : ParseGuidNone}.

(** The attributes the [from_xml] of each class looks at. *)
Definition read_attributes (c : Condition.t) : list string :=
  match c with
  | Condition.OfKeyboard _ => ["comparison"; "scan-code"; "extended"]
  | Condition.OfJoystick _ =>
      ["comparison"; "input"; "id"; "device-guid"; "device-name";
       "range-low"; "range-high"]
  | Condition.OfVJoy _ =>
      ["comparison"; "input"; "id"; "vjoy-id"; "range-low"; "range-high"]
  | Condition.OfInputAction _ => ["comparison"]
  end.

(** The two range attributes, for an axis. *)
Definition range_attributes (input_type : option InputType.t) : list string :=
  if decide (input_type = Some InputType.JoystickAxis)
  then ["range-low"; "range-high"] else [].

(** The attributes the [to_xml] of each class sets. *)
Definition written_attributes (c : Condition.t) : list string :=
  match c with
  | Condition.OfKeyboard _ =>
      ["condition-type"; "input"; "comparison"; "scan-code"; "extended"]
  | Condition.OfJoystick j =>
      ["comparison"; "condition-type"; "input"; "id"; "device-guid";
       "device-name"] ++ range_attributes (JoystickCondition.input_type j)
  | Condition.OfVJoy v =>
      ["comparison"; "condition-type"; "input"; "id"; "vjoy-id"]
      ++ range_attributes (VJoyCondition.input_type v)
  | Condition.OfInputAction _ => ["condition-type"; "input"; "comparison"]
  end.

(** The fields of a condition that must be set for its XML form to read
    back as the same object; the comparison is not among them. *)
Definition storable (c : Condition.t) : Prop :=
  match c with
  | Condition.OfKeyboard k =>
      KeyboardCondition.scan_code k <> None /\
      KeyboardCondition.is_extended k <> None
  | Condition.OfJoystick j =>
      JoystickCondition.input_type j <> None /\ reloadable c
  | Condition.OfVJoy v =>
      VJoyCondition.input_type v <> None /\ reloadable c
  | Condition.OfInputAction _ => True
  end.

(** The one field whose old value a read can leave in place: the range of
    a joystick or vJoy condition. *)
Definition kept_range (c : Condition.t) : option (Py.float * Py.float) :=
  match c with
  | Condition.OfJoystick j => Some (JoystickCondition.range j)
  | Condition.OfVJoy v => Some (VJoyCondition.range v)
  | _ => None
  end.

(** The composite without the conditions that are not valid. *)
Definition without_invalid (a : ActivationCondition.t)
    : ActivationCondition.t :=
  {| ActivationCondition.rule := ActivationCondition.rule a;
     ActivationCondition.conditions :=
       List.filter Condition.is_valid (ActivationCondition.conditions a) |}.

End FurtherNotions.

(** * Properties *)

(** ** Text forms read back *)

Lemma int_str_int (z : Z) : Py.int (Py.str_int z) = Some z.
Proof.
  unfold Py.int, Py.str_int.
  rewrite NilZero.isi.
  - cbn. f_equal. apply DecimalZ.of_to.
  - destruct z; cbn; try discriminate.
    intros [= H]. by apply Unsigned.to_uint_nonnil in H.
  - destruct z; cbn; try discriminate.
    intros [= H]. by apply Unsigned.to_uint_nonnil in H.
Qed.

Lemma parse_bool_str_bool (b : bool) : parse_bool (Py.str_bool b) = Ok b.
Proof. destruct b; reflexivity. Qed.

Lemma to_enum_member_string (v : InputType.t) :
  InputType.to_enum (InputType.member_string v) = Ok v.
Proof. destruct v; reflexivity. Qed.

Lemma hex_to_byte_of_byte (b : byte) : Hex.to_byte (Hex.hi b) (Hex.lo b) = Some b.
Proof. destruct b; reflexivity. Qed.

Lemma guid_of_string_guid_str (g : Guid) : guid_of_string (guid_str g) = Some g.
Proof.
  destruct g.
  cbv -[Hex.hi Hex.lo Hex.to_byte mbind option_bind].
  rewrite !hex_to_byte_of_byte. reflexivity.
Qed.

(** ** Validity of the single conditions *)

Lemma abstract_is_valid_iff (c : AbstractCondition.t) :
  AbstractCondition.is_valid c = true <-> AbstractCondition.comparison c <> "".
Proof. unfold AbstractCondition.is_valid. apply bool_decide_eq_true. Qed.

Lemma keyboard_is_valid_iff (c : KeyboardCondition.t) :
  KeyboardCondition.is_valid c = true <->
  KeyboardCondition.comparison c <> "" /\
  KeyboardCondition.scan_code c <> None /\
  KeyboardCondition.is_extended c <> None.
Proof.
  unfold KeyboardCondition.is_valid, KeyboardCondition.comparison.
  rewrite !andb_true_iff, !bool_decide_eq_true, abstract_is_valid_iff.
  tauto.
Qed.

(** Reading the attributes of a node built by a sequence of [set]. *)
Ltac read_attr :=
  unfold safe_read_str, safe_read, ElementTree.get, ElementTree.set,
    ElementTree.Element; cbn [attrib tag children];
  simplify_map_eq.

Section RoundTrip.
Context `{F : Py.Float} `{U : ParseGuidNone}.

Lemma joystick_is_valid_iff (c : JoystickCondition.t) :
  JoystickCondition.is_valid c = true <->
  JoystickCondition.comparison c <> "" /\
  JoystickCondition.input_type c <> None.
Proof.
  unfold JoystickCondition.is_valid, JoystickCondition.comparison.
  by rewrite andb_true_iff, bool_decide_eq_true, abstract_is_valid_iff.
Qed.

Lemma vjoy_is_valid_iff (c : VJoyCondition.t) :
  VJoyCondition.is_valid c = true <->
  VJoyCondition.comparison c <> "" /\
  VJoyCondition.input_type c <> None.
Proof.
  unfold VJoyCondition.is_valid, VJoyCondition.comparison.
  by rewrite andb_true_iff, bool_decide_eq_true, abstract_is_valid_iff.
Qed.


Lemma keyboard_round_trip (self c : KeyboardCondition.t) :
  KeyboardCondition.is_valid c = true ->
  exists node,
    KeyboardCondition.to_xml c = Ok node /\
    tag node = "condition" /\
    ElementTree.get node "condition-type" = Some "keyboard" /\
    KeyboardCondition.from_xml self node = Ok c.
Proof.
  intros (_ & Hcode & Hext)%keyboard_is_valid_iff.
  destruct c as [[cmp] [code|] [ext|]]; try done.
  eexists. split; [reflexivity|]. split; [reflexivity|].
  split; [by read_attr|].
  unfold KeyboardCondition.from_xml. read_attr.
  rewrite int_str_int. cbn. by rewrite parse_bool_str_bool.
Qed.

Lemma input_action_round_trip (self c : InputActionCondition.t) :
  exists node,
    InputActionCondition.to_xml c = Ok node /\
    tag node = "condition" /\
    ElementTree.get node "condition-type" = Some "action" /\
    InputActionCondition.from_xml self node = Ok c.
Proof.
  destruct c as [[cmp]].
  eexists. split; [reflexivity|]. split; [reflexivity|].
  split; [by read_attr|].
  unfold InputActionCondition.from_xml. by read_attr.
Qed.

Lemma joystick_round_trip (self c : JoystickCondition.t) g v :
  JoystickCondition.device_guid c = GuidValue g ->
  JoystickCondition.input_type c = Some v ->
  (v <> InputType.JoystickAxis ->
   JoystickCondition.range c = JoystickCondition.range self) ->
  (v = InputType.JoystickAxis ->
   Py.is_nan (JoystickCondition.range c).1 = false /\
   Py.is_nan (JoystickCondition.range c).2 = false) ->
  exists node,
    JoystickCondition.to_xml c = Ok node /\
    tag node = "condition" /\
    ElementTree.get node "condition-type" = Some "joystick" /\
    JoystickCondition.from_xml self node = Ok c.
Proof.
  destruct c as [[cmp] guid ty id [lo hi] name]; cbn.
  intros -> -> Hrange Hnan.
  unfold JoystickCondition.to_xml; cbn.
  destruct (decide (Some v = Some InputType.JoystickAxis)) as [[= ->]|Hne].
  - destruct (Hnan eq_refl) as [Hlo Hhi].
    eexists. split; [reflexivity|]. split; [reflexivity|].
    split; [by read_attr|].
    unfold JoystickCondition.from_xml. read_attr.
    rewrite int_str_int, guid_of_string_guid_str,
      (Py.to_float_str lo Hlo), (Py.to_float_str hi Hhi).
    reflexivity.
  - eexists. split; [reflexivity|]. split; [reflexivity|].
    split; [by read_attr|].
    unfold JoystickCondition.from_xml. read_attr.
    rewrite to_enum_member_string. cbn.
    rewrite int_str_int, guid_of_string_guid_str. cbn.
    destruct (decide (v = InputType.JoystickAxis)) as [->|Hv]; [done|].
    cbn. by rewrite <- Hrange.
Qed.

Lemma vjoy_round_trip (self c : VJoyCondition.t) v :
  VJoyCondition.input_type c = Some v ->
  (v <> InputType.JoystickAxis ->
   VJoyCondition.range c = VJoyCondition.range self) ->
  (v = InputType.JoystickAxis ->
   Py.is_nan (VJoyCondition.range c).1 = false /\
   Py.is_nan (VJoyCondition.range c).2 = false) ->
  exists node,
    VJoyCondition.to_xml c = Ok node /\
    tag node = "condition" /\
    ElementTree.get node "condition-type" = Some "vjoy" /\
    VJoyCondition.from_xml self node = Ok c.
Proof.
  destruct c as [[cmp] vid ty id [lo hi]]; cbn.
  intros -> Hrange Hnan.
  unfold VJoyCondition.to_xml; cbn.
  destruct (decide (Some v = Some InputType.JoystickAxis)) as [[= ->]|Hne].
  - destruct (Hnan eq_refl) as [Hlo Hhi].
    eexists. split; [reflexivity|]. split; [reflexivity|].
    split; [by read_attr|].
    unfold VJoyCondition.from_xml. read_attr.
    rewrite !int_str_int, (Py.to_float_str lo Hlo), (Py.to_float_str hi Hhi).
    reflexivity.
  - eexists. split; [reflexivity|]. split; [reflexivity|].
    split; [by read_attr|].
    unfold VJoyCondition.from_xml. read_attr.
    rewrite to_enum_member_string. cbn.
    rewrite !int_str_int. cbn.
    destruct (decide (v = InputType.JoystickAxis)) as [->|Hv]; [done|].
    cbn. by rewrite <- Hrange.
Qed.

Lemma condition_is_valid_iff (c : Condition.t) :
  Condition.is_valid c = true <->
  Condition.comparison c <> "" /\
  match c with
  | Condition.OfKeyboard k =>
      KeyboardCondition.scan_code k <> None /\
      KeyboardCondition.is_extended k <> None
  | Condition.OfJoystick j => JoystickCondition.input_type j <> None
  | Condition.OfVJoy v => VJoyCondition.input_type v <> None
  | Condition.OfInputAction _ => True
  end.
Proof.
  destruct c as [k|j|v|a]; cbn.
  - apply keyboard_is_valid_iff.
  - apply joystick_is_valid_iff.
  - apply vjoy_is_valid_iff.
  - unfold InputActionCondition.is_valid, InputActionCondition.comparison.
    rewrite abstract_is_valid_iff. tauto.
Qed.

(** A valid condition of any class is written without an exception. *)
Lemma valid_to_xml_ok (c : Condition.t) :
  Condition.is_valid c = true ->
  exists node, Condition.to_xml c = Ok node /\ tag node = "condition".
Proof.
  intros [_ Hc]%condition_is_valid_iff.
  destruct c as [k|j|v|a]; cbn.
  - eexists; split; reflexivity.
  - unfold JoystickCondition.to_xml.
    destruct (JoystickCondition.input_type j) as [ty|]; [|done].
    cbn. eexists; split; [reflexivity|]. by case_decide.
  - unfold VJoyCondition.to_xml.
    destruct (VJoyCondition.input_type v) as [ty|]; [|done].
    cbn. eexists; split; [reflexivity|]. by case_decide.
  - eexists; split; reflexivity.
Qed.

Lemma condition_round_trip (c : Condition.t) :
  Condition.is_valid c = true -> reloadable c -> range_not_nan c ->
  exists node,
    Condition.to_xml c = Ok node /\
    tag node = "condition" /\
    ActivationCondition.read_condition node = Ok c.
Proof.
  intros Hv Hr Hnan.
  destruct (proj1 (condition_is_valid_iff c) Hv) as [_ Hc].
  unfold ActivationCondition.read_condition, safe_read_str, safe_read.
  destruct c as [k|j|v|a]; cbn in *.
  - destruct (keyboard_round_trip KeyboardCondition.__init__ k)
      as (node & Hxml & Htag & Hty & Hread).
    { done. }
    exists node. rewrite Hty. split_and!; [done..|].
    change (Condition.from_xml (Condition.OfKeyboard KeyboardCondition.__init__) node
            = Ok (Condition.OfKeyboard k)).
    cbn [Condition.from_xml]. by rewrite Hread.
  - destruct Hr as [[g Hg] Hrange].
    destruct (JoystickCondition.input_type j) as [ty|] eqn:Hin; [|done].
    destruct (joystick_round_trip JoystickCondition.__init__ j g ty)
      as (node & Hxml & Htag & Hty & Hread); [done..| | |].
    { intros Hne. apply Hrange. congruence. }
    { intros ->. by apply Hnan. }
    exists node. rewrite Hty. split_and!; [done..|].
    change (Condition.from_xml (Condition.OfJoystick JoystickCondition.__init__) node
            = Ok (Condition.OfJoystick j)).
    cbn [Condition.from_xml]. by rewrite Hread.
  - destruct (VJoyCondition.input_type v) as [ty|] eqn:Hin; [|done].
    destruct (vjoy_round_trip VJoyCondition.__init__ v ty)
      as (node & Hxml & Htag & Hty & Hread); [done| | |].
    { intros Hne. apply Hr. congruence. }
    { intros ->. by apply Hnan. }
    exists node. rewrite Hty. split_and!; [done..|].
    change (Condition.from_xml (Condition.OfVJoy VJoyCondition.__init__) node
            = Ok (Condition.OfVJoy v)).
    cbn [Condition.from_xml]. by rewrite Hread.
  - destruct (input_action_round_trip InputActionCondition.__init__ a)
      as (node & Hxml & Htag & Hty & Hread).
    exists node. rewrite Hty. split_and!; [done..|].
    change (Condition.from_xml (Condition.OfInputAction InputActionCondition.__init__) node
            = Ok (Condition.OfInputAction a)).
    cbn [Condition.from_xml]. by rewrite Hread.
Qed.

(** ** The loops of the composite *)

(** The writing loop never raises: it appends the XML form of each valid
    condition, in order, and skips the others. *)
Lemma to_xml_loop_spec (conds : list Condition.t) : forall node,
  exists kids,
    ActivationCondition.to_xml_loop node conds
    = Ok (mkElement (tag node) (attrib node) (children node ++ kids)) /\
    Forall2 (fun c child => Condition.to_xml c = Ok child)
      (List.filter Condition.is_valid conds) kids.
Proof.
  induction conds as [|c rest IH]; intros node; cbn.
  - exists []. rewrite app_nil_r. by destruct node.
  - destruct (Condition.is_valid c) eqn:Hv; [|apply IH].
    destruct (valid_to_xml_ok c Hv) as (child & Hchild & _).
    rewrite Hchild. cbn.
    destruct (IH (ElementTree.append node child)) as (kids & Hloop & Hall).
    exists (child :: kids). rewrite Hloop. cbn. rewrite <- app_assoc.
    split; [done|]. by constructor.
Qed.

(** The reading loop only ever extends the list it is given. *)
Lemma from_xml_loop_spec (cond_nodes : list XmlNode) : forall conds,
  exists new : list Condition.t,
    (ActivationCondition.from_xml_loop conds cond_nodes).1 = conds ++ new /\
    ((ActivationCondition.from_xml_loop conds cond_nodes).2 = None ->
     Forall2 (fun n c => ActivationCondition.read_condition n = Ok c)
       cond_nodes new).
Proof.
  induction cond_nodes as [|n rest IH]; intros conds; cbn.
  - exists []. by rewrite app_nil_r.
  - destruct (ActivationCondition.read_condition n) as [c|e] eqn:Hn; cbn.
    + destruct (IH (conds ++ [c])) as (new & Hnew & Hall).
      exists (c :: new). rewrite Hnew, <- app_assoc. split; [done|].
      intros He. constructor; auto.
    + exists []. by rewrite app_nil_r.
Qed.

(** When every node reads, the loop appends all the conditions read. *)
Lemma from_xml_loop_all_ok (cond_nodes : list XmlNode) :
  forall conds new : list Condition.t,
  Forall2 (fun n c => ActivationCondition.read_condition n = Ok c)
    cond_nodes new ->
  ActivationCondition.from_xml_loop conds cond_nodes = (conds ++ new, None).
Proof.
  induction cond_nodes as [|n rest IH]; intros conds new Hall;
    inversion Hall as [|? c ? new' Hn Hrest]; subst; cbn.
  - by rewrite app_nil_r.
  - rewrite Hn, (IH _ new' Hrest). by rewrite <- app_assoc.
Qed.

(** The loop stops at the first node whose [condition-type] is not
    registered, with the [KeyError] of the dictionary. *)
Lemma from_xml_loop_unknown_type (before after : list XmlNode)
    (bad : XmlNode) (key : string) : forall conds,
  Forall (fun n => is_ok (ActivationCondition.read_condition n) = true)
    before ->
  ElementTree.get bad "condition-type" = Some key ->
  key ∉ ["keyboard"; "joystick"; "vjoy"; "action"] ->
  (ActivationCondition.from_xml_loop conds (before ++ bad :: after)).2
  = Some (KeyError key).
Proof.
  intros conds Hbefore Hkey Hnot. revert conds.
  induction Hbefore as [|n rest Hn _ IH]; intros conds; cbn.
  - unfold ActivationCondition.read_condition, safe_read_str, safe_read.
    rewrite Hkey. cbn. unfold ActivationCondition.condition_lookup.
    repeat case_decide; subst; try done; exfalso; apply Hnot; set_solver.
  - destruct (ActivationCondition.read_condition n); [apply IH|done].
Qed.

(** What [to_xml] of a composite returns. *)
Lemma composite_to_xml_spec (self : ActivationCondition.t) :
  exists node,
    ActivationCondition.to_xml self = Ok node /\
    tag node = "activation-condition" /\
    ElementTree.get node "rule"
    = Some (ActivationCondition.rule_lookup_string
              (ActivationCondition.rule self)) /\
    Forall2 (fun c child => Condition.to_xml c = Ok child)
      (List.filter Condition.is_valid (ActivationCondition.conditions self))
      (children node).
Proof.
  unfold ActivationCondition.to_xml.
  destruct (to_xml_loop_spec (ActivationCondition.conditions self)
              (ElementTree.set (ElementTree.Element "activation-condition")
                 "rule"
                 (ActivationCondition.rule_lookup_string
                    (ActivationCondition.rule self))))
    as (kids & -> & Hkids).
  eexists. split; [reflexivity|]. cbn.
  split; [done|]. split; [|done].
  unfold ElementTree.get. cbn. by simplify_map_eq.
Qed.

End RoundTrip.

(** ** Exceptions of the readers *)

Lemma is_schema_error_only {A} (r : result A) :
  is_schema_error r = true -> schema_only r = true.
Proof. by destruct r as [|[]]. Qed.

Lemma is_schema_error_inv {A} (r : result A) :
  is_schema_error r = true ->
  exists reason subject, r = Raise (SchemaError reason subject).
Proof. destruct r as [|[]]; try done. eauto. Qed.

Lemma bind_is_schema_error {A B} (m : result A) (f : A -> result B) :
  schema_only m = true ->
  (forall a, m = Ok a -> is_schema_error (f a) = true) ->
  is_schema_error (m ≫= f) = true.
Proof. destruct m as [a|[]]; cbn; auto; done. Qed.

Lemma bind_schema_only {A B} (m : result A) (f : A -> result B) :
  schema_only m = true ->
  (forall a, m = Ok a -> schema_only (f a) = true) ->
  schema_only (m ≫= f) = true.
Proof. destruct m as [a|[]]; cbn; auto; done. Qed.

Lemma fmap_is_schema_error {A B} (m : result A) (f : A -> B) :
  is_schema_error (f <$> m) = is_schema_error m.
Proof. by destruct m. Qed.

Lemma safe_read_schema_only {A} node key (type_cast : string -> option A) :
  schema_only (safe_read node key type_cast) = true.
Proof. unfold safe_read. by repeat case_match. Qed.

Lemma parse_bool_schema_only s : schema_only (parse_bool s) = true.
Proof. unfold parse_bool. by repeat case_decide. Qed.

Lemma parse_guid_schema_only `{U : ParseGuidNone} (s : string) :
  schema_only (parse_guid (Some s)) = true.
Proof. unfold parse_guid. by case_match. Qed.

Lemma to_enum_schema_only s : schema_only (InputType.to_enum s) = true.
Proof. unfold InputType.to_enum. by repeat case_decide. Qed.

(** Reading an absent attribute through [safe_read] ends the reader. *)
Lemma safe_read_missing {A B} node key (type_cast : string -> option A)
    (f : A -> result B) :
  ElementTree.get node key = None ->
  is_schema_error (safe_read node key type_cast ≫= f) = true.
Proof. unfold safe_read. by intros ->. Qed.

Create HintDb schema.
#[local] Hint Resolve safe_read_schema_only parse_bool_schema_only
  parse_guid_schema_only to_enum_schema_only : schema.

(** Walks down a reader to the read of the absent attribute. *)
Ltac find_missing_read :=
  repeat first
    [ apply safe_read_missing; assumption
    | apply bind_is_schema_error; [solve [auto with schema] | intros ? _] ].

(** ** The range attributes *)

Lemma get_without_range node key :
  key <> "range-low" -> key <> "range-high" ->
  ElementTree.get (without_range node) key = ElementTree.get node key.
Proof.
  intros Hlow Hhigh. unfold ElementTree.get, without_range. cbn.
  by rewrite !lookup_delete_ne.
Qed.

Lemma safe_read_without_range {A} node key (type_cast : string -> option A) :
  key <> "range-low" -> key <> "range-high" ->
  safe_read (without_range node) key type_cast = safe_read node key type_cast.
Proof. intros. unfold safe_read. by rewrite get_without_range. Qed.

Lemma to_enum_axis s :
  InputType.to_enum s = Ok InputType.JoystickAxis -> s = "axis".
Proof. unfold InputType.to_enum. by repeat case_decide. Qed.

Lemma safe_read_str_get node key s :
  safe_read_str node key = Ok s -> ElementTree.get node key = Some s.
Proof.
  unfold safe_read_str, safe_read.
  destruct (ElementTree.get node key); [|done]. cbn. congruence.
Qed.

Lemma safe_read_str_present node key s :
  ElementTree.get node key = Some s -> safe_read node key Some = Ok s.
Proof. unfold safe_read. by intros ->. Qed.

Lemma safe_read_absent {A} node key (type_cast : string -> option A) :
  ElementTree.get node key = None ->
  safe_read node key type_cast = Raise (SchemaError Missing key).
Proof. unfold safe_read. by intros ->. Qed.

(** Splits a completed reader into its completed steps. *)
Ltac bind_inv H :=
  repeat match type of H with
         | (?m ≫= _) = Ok _ =>
             let E := fresh "E" in
             destruct m eqn:E; cbn [mbind result_bind] in H;
             [|discriminate H]
         end.

Section Range.
Context `{F : Py.Float} `{U : ParseGuidNone}.

Lemma joystick_to_xml_range (c : JoystickCondition.t) node :
  JoystickCondition.to_xml c = Ok node ->
  (is_Some (ElementTree.get node "range-low")
   <-> JoystickCondition.input_type c = Some InputType.JoystickAxis) /\
  (is_Some (ElementTree.get node "range-high")
   <-> JoystickCondition.input_type c = Some InputType.JoystickAxis).
Proof.
  unfold JoystickCondition.to_xml. intros H. bind_inv H.
  injection H as <-.
  case_decide as Hty; read_attr; split; split; intros; try done;
    by apply is_Some_None in H.
Qed.

Lemma joystick_from_xml_range (self c : JoystickCondition.t) node :
  JoystickCondition.from_xml self node = Ok c ->
  if decide (JoystickCondition.input_type c = Some InputType.JoystickAxis)
  then safe_read node "range-low" Py.to_float
       = Ok (JoystickCondition.range c).1 /\
       safe_read node "range-high" Py.to_float
       = Ok (JoystickCondition.range c).2
  else JoystickCondition.range c = JoystickCondition.range self.
Proof.
  unfold JoystickCondition.from_xml. intros H. bind_inv H.
  injection H as <-. cbn.
  repeat case_decide; try congruence.
  match goal with
  | Hr : _ ≫= _ = Ok _ |- _ => bind_inv Hr; injection Hr as <-; by split
  end.
Qed.

Lemma joystick_from_xml_ignores_range (self : JoystickCondition.t) node :
  ElementTree.get node "input" <> Some "axis" ->
  JoystickCondition.from_xml self (without_range node)
  = JoystickCondition.from_xml self node.
Proof.
  intros Hin. unfold JoystickCondition.from_xml, safe_read_str.
  rewrite (safe_read_without_range _ "comparison"),
    (safe_read_without_range _ "input"), (safe_read_without_range _ "id"),
    (safe_read_without_range _ "device-name"), get_without_range by done.
  destruct (safe_read node "comparison" Some); [cbn|done].
  destruct (safe_read node "input" Some) as [s|] eqn:Hs; [cbn|done].
  destruct (InputType.to_enum s) as [ty|] eqn:Hty; [cbn|done].
  destruct (safe_read node "id" Py.int); [cbn|done].
  destruct (parse_guid _); [cbn|done].
  destruct (safe_read node "device-name" Some); [cbn|done].
  case_decide as Hax; [|done]. subst ty.
  apply to_enum_axis in Hty as ->. by apply safe_read_str_get in Hs.
Qed.

Lemma joystick_from_xml_axis_needs_range (self : JoystickCondition.t) node :
  ElementTree.get node "input" = Some "axis" ->
  ElementTree.get node "range-low" = None
  \/ ElementTree.get node "range-high" = None ->
  is_ok (JoystickCondition.from_xml self node) = false.
Proof.
  intros Hin Hrange. unfold JoystickCondition.from_xml, safe_read_str.
  rewrite (safe_read_str_present _ _ _ Hin).
  destruct (safe_read node "comparison" Some); [cbn|done].
  destruct (safe_read node "id" Py.int); [cbn|done].
  destruct (parse_guid _); [cbn|done].
  destruct (safe_read node "device-name" Some); [cbn|done].
  destruct Hrange as [Hlow|Hhigh].
  - by rewrite (safe_read_absent _ _ _ Hlow).
  - rewrite (safe_read_absent _ "range-high" _ Hhigh).
    by destruct (safe_read node "range-low" Py.to_float).
Qed.

Lemma vjoy_to_xml_range (c : VJoyCondition.t) node :
  VJoyCondition.to_xml c = Ok node ->
  (is_Some (ElementTree.get node "range-low")
   <-> VJoyCondition.input_type c = Some InputType.JoystickAxis) /\
  (is_Some (ElementTree.get node "range-high")
   <-> VJoyCondition.input_type c = Some InputType.JoystickAxis).
Proof.
  unfold VJoyCondition.to_xml. intros H. bind_inv H.
  injection H as <-.
  case_decide as Hty; read_attr; split; split; intros; try done;
    by apply is_Some_None in H.
Qed.

Lemma vjoy_from_xml_range (self c : VJoyCondition.t) node :
  VJoyCondition.from_xml self node = Ok c ->
  if decide (VJoyCondition.input_type c = Some InputType.JoystickAxis)
  then safe_read node "range-low" Py.to_float
       = Ok (VJoyCondition.range c).1 /\
       safe_read node "range-high" Py.to_float
       = Ok (VJoyCondition.range c).2
  else VJoyCondition.range c = VJoyCondition.range self.
Proof.
  unfold VJoyCondition.from_xml. intros H. bind_inv H.
  injection H as <-. cbn.
  repeat case_decide; try congruence.
  match goal with
  | Hr : _ ≫= _ = Ok _ |- _ => bind_inv Hr; injection Hr as <-; by split
  end.
Qed.

Lemma vjoy_from_xml_ignores_range (self : VJoyCondition.t) node :
  ElementTree.get node "input" <> Some "axis" ->
  VJoyCondition.from_xml self (without_range node)
  = VJoyCondition.from_xml self node.
Proof.
  intros Hin. unfold VJoyCondition.from_xml, safe_read_str.
  rewrite (safe_read_without_range _ "comparison"),
    (safe_read_without_range _ "input"), (safe_read_without_range _ "id"),
    (safe_read_without_range _ "vjoy-id") by done.
  destruct (safe_read node "comparison" Some); [cbn|done].
  destruct (safe_read node "input" Some) as [s|] eqn:Hs; [cbn|done].
  destruct (InputType.to_enum s) as [ty|] eqn:Hty; [cbn|done].
  destruct (safe_read node "id" Py.int); [cbn|done].
  destruct (safe_read node "vjoy-id" Py.int); [cbn|done].
  case_decide as Hax; [|done]. subst ty.
  apply to_enum_axis in Hty as ->. by apply safe_read_str_get in Hs.
Qed.

Lemma vjoy_from_xml_axis_needs_range (self : VJoyCondition.t) node :
  ElementTree.get node "input" = Some "axis" ->
  ElementTree.get node "range-low" = None
  \/ ElementTree.get node "range-high" = None ->
  is_ok (VJoyCondition.from_xml self node) = false.
Proof.
  intros Hin Hrange. unfold VJoyCondition.from_xml, safe_read_str.
  rewrite (safe_read_str_present _ _ _ Hin).
  destruct (safe_read node "comparison" Some); [cbn|done].
  destruct (safe_read node "id" Py.int); [cbn|done].
  destruct (safe_read node "vjoy-id" Py.int); [cbn|done].
  destruct Hrange as [Hlow|Hhigh].
  - by rewrite (safe_read_absent _ _ _ Hlow).
  - rewrite (safe_read_absent _ "range-high" _ Hhigh).
    by destruct (safe_read node "range-low" Py.to_float).
Qed.

Lemma joystick_range_written (c : JoystickCondition.t) ty :
  JoystickCondition.input_type c = Some ty ->
  exists node,
    JoystickCondition.to_xml c = Ok node /\
    ElementTree.get node "range-low"
    = (if decide (ty = InputType.JoystickAxis)
       then Some (Py.str_float (JoystickCondition.range c).1) else None) /\
    ElementTree.get node "range-high"
    = (if decide (ty = InputType.JoystickAxis)
       then Some (Py.str_float (JoystickCondition.range c).2) else None).
Proof.
  destruct c as [[cmp] guid ? id [lo hi] name]; cbn. intros ->.
  unfold JoystickCondition.to_xml; cbn.
  destruct (decide (ty = InputType.JoystickAxis)) as [->|Hne].
  - rewrite decide_True by done.
    eexists. split; [reflexivity|]. by read_attr.
  - rewrite decide_False by congruence.
    eexists. split; [reflexivity|]. by read_attr.
Qed.

Lemma vjoy_range_written (c : VJoyCondition.t) ty :
  VJoyCondition.input_type c = Some ty ->
  exists node,
    VJoyCondition.to_xml c = Ok node /\
    ElementTree.get node "range-low"
    = (if decide (ty = InputType.JoystickAxis)
       then Some (Py.str_float (VJoyCondition.range c).1) else None) /\
    ElementTree.get node "range-high"
    = (if decide (ty = InputType.JoystickAxis)
       then Some (Py.str_float (VJoyCondition.range c).2) else None).
Proof.
  destruct c as [[cmp] vid ? id [lo hi]]; cbn. intros ->.
  unfold VJoyCondition.to_xml; cbn.
  destruct (decide (ty = InputType.JoystickAxis)) as [->|Hne].
  - rewrite decide_True by done.
    eexists. split; [reflexivity|]. by read_attr.
  - rewrite decide_False by congruence.
    eexists. split; [reflexivity|]. by read_attr.
Qed.

Lemma joystick_read_without_range (self c : JoystickCondition.t) ty :
  JoystickCondition.input_type c = Some ty ->
  ty <> InputType.JoystickAxis ->
  (exists g, JoystickCondition.device_guid c = GuidValue g) ->
  exists node c',
    JoystickCondition.to_xml c = Ok node /\
    JoystickCondition.from_xml self node = Ok c' /\
    JoystickCondition.input_type c' = Some ty /\
    JoystickCondition.range c' = JoystickCondition.range self.
Proof.
  destruct c as [[cmp] guid ? id [lo hi] name]; cbn.
  intros -> Hne [g ->].
  unfold JoystickCondition.to_xml; cbn.
  rewrite decide_False by congruence.
  eexists. eexists. split; [reflexivity|].
  unfold JoystickCondition.from_xml. read_attr.
  rewrite to_enum_member_string. cbn.
  rewrite int_str_int, guid_of_string_guid_str. cbn.
  rewrite decide_False by done. cbn. done.
Qed.

Lemma vjoy_read_without_range (self c : VJoyCondition.t) ty :
  VJoyCondition.input_type c = Some ty ->
  ty <> InputType.JoystickAxis ->
  exists node c',
    VJoyCondition.to_xml c = Ok node /\
    VJoyCondition.from_xml self node = Ok c' /\
    VJoyCondition.input_type c' = Some ty /\
    VJoyCondition.range c' = VJoyCondition.range self.
Proof.
  destruct c as [[cmp] vid ? id [lo hi]]; cbn.
  intros -> Hne.
  unfold VJoyCondition.to_xml; cbn.
  rewrite decide_False by congruence.
  eexists. eexists. split; [reflexivity|].
  unfold VJoyCondition.from_xml. read_attr.
  rewrite to_enum_member_string. cbn.
  rewrite !int_str_int. cbn.
  rewrite decide_False by done. cbn. done.
Qed.

Lemma joystick_read_axis (self c : JoystickCondition.t) :
  JoystickCondition.input_type c = Some InputType.JoystickAxis ->
  (exists g, JoystickCondition.device_guid c = GuidValue g) ->
  Py.is_nan (JoystickCondition.range c).1 = false ->
  Py.is_nan (JoystickCondition.range c).2 = false ->
  exists node,
    JoystickCondition.to_xml c = Ok node /\
    JoystickCondition.from_xml self node = Ok c.
Proof.
  intros Hty [g Hg] Hlo Hhi.
  destruct (joystick_round_trip self c g InputType.JoystickAxis)
    as (node & Hnode & _ & _ & Hread); [done..|].
  by exists node.
Qed.

Lemma vjoy_read_axis (self c : VJoyCondition.t) :
  VJoyCondition.input_type c = Some InputType.JoystickAxis ->
  Py.is_nan (VJoyCondition.range c).1 = false ->
  Py.is_nan (VJoyCondition.range c).2 = false ->
  exists node,
    VJoyCondition.to_xml c = Ok node /\
    VJoyCondition.from_xml self node = Ok c.
Proof.
  intros Hty Hlo Hhi.
  destruct (vjoy_round_trip self c InputType.JoystickAxis)
    as (node & Hnode & _ & _ & Hread); [done..|].
  by exists node.
Qed.

End Range.

(** ** The floats with an integral value read back *)

Lemma strip_point_zero_app (s : string) :
  IntegralFloat.strip_point_zero (s +:+ ".0") = Some s.
Proof.
  induction s as [|c r IH]; [reflexivity|].
  change (IntegralFloat.strip_point_zero (String c r +:+ ".0"))
    with (if String.eqb (String c (r +:+ ".0")) ".0" then Some EmptyString
          else String c <$> IntegralFloat.strip_point_zero (r +:+ ".0")).
  rewrite IH.
  destruct (String.eqb_spec (String c (r +:+ ".0")) ".0") as [H|_];
    [|reflexivity].
  injection H as _ H. destruct r as [|d [|e r]]; discriminate.
Qed.

Lemma integral_to_float_str (z : Z) :
  IntegralFloat.to_float (IntegralFloat.str_float z) = Some z.
Proof.
  unfold IntegralFloat.to_float, IntegralFloat.str_float.
  rewrite strip_point_zero_app. apply int_str_int.
Qed.

Lemma integral_of_str_str (x : IntegralFloat.t) :
  IntegralFloat.is_nan x = false ->
  IntegralFloat.of_str (IntegralFloat.str x) = Some x.
Proof.
  destruct x as [z|]; [intros _|done].
  pose proof (integral_to_float_str z) as Hz.
  unfold IntegralFloat.of_str, IntegralFloat.str.
  repeat case_decide.
  - rewrite H in Hz. discriminate Hz.
  - rewrite H0 in Hz. discriminate Hz.
  - by rewrite Hz.
Qed.

Lemma parse_guid_None_raises_no_KeyError (key : string) :
  parse_guid_None_raises <> Raise (KeyError key).
Proof. discriminate. Qed.

(** ** Writing, then reading *)

Section WriteRead.
Context `{F : Py.Float} `{U : ParseGuidNone}.

(** The class registered under the [condition-type] a condition writes is
    its own. *)
Lemma condition_round_trip_new (c : Condition.t) :
  Condition.is_valid c = true -> reloadable c -> range_not_nan c ->
  Condition.to_xml c ≫= Condition.from_xml (new_instance c) = Ok c.
Proof.
  intros Hv Hr Hnan.
  destruct (proj1 (condition_is_valid_iff c) Hv) as [_ Hc].
  destruct c as [k|j|v|a]; cbn [Condition.to_xml new_instance reloadable range_not_nan] in *.
  - destruct (keyboard_round_trip KeyboardCondition.__init__ k Hv)
      as (node & -> & _ & _ & Hread).
    cbn. by rewrite Hread.
  - destruct Hr as [[g Hg] Hrange].
    destruct (JoystickCondition.input_type j) as [ty|] eqn:Hin; [|done].
    destruct (joystick_round_trip JoystickCondition.__init__ j g ty)
      as (node & -> & _ & _ & Hread); [done..| | |].
    { intros Hne. apply Hrange. congruence. }
    { intros ->. by apply Hnan. }
    cbn. by rewrite Hread.
  - destruct (VJoyCondition.input_type v) as [ty|] eqn:Hin; [|done].
    destruct (vjoy_round_trip VJoyCondition.__init__ v ty)
      as (node & -> & _ & _ & Hread); [done| | |].
    { intros Hne. apply Hr. congruence. }
    { intros ->. by apply Hnan. }
    cbn. by rewrite Hread.
  - destruct (input_action_round_trip InputActionCondition.__init__ a)
      as (node & -> & _ & _ & Hread).
    cbn. by rewrite Hread.
Qed.

Lemma filter_all_valid (conds : list Condition.t) :
  Forall (fun c => Condition.is_valid c = true /\ reloadable c
                   /\ range_not_nan c) conds ->
  List.filter Condition.is_valid conds = conds.
Proof.
  induction 1 as [|c rest [Hv _] _ IH]; [done|].
  cbn. by rewrite Hv, IH.
Qed.

(** The children written for valid, reloadable conditions are [condition]
    elements that read back as those conditions. *)
Lemma written_children_read (conds : list Condition.t) :
  Forall (fun c => Condition.is_valid c = true /\ reloadable c
                   /\ range_not_nan c) conds ->
  forall kids,
    Forall2 (fun c child => Condition.to_xml c = Ok child) conds kids ->
    Forall (fun child => tag child = "condition") kids /\
    Forall2 (fun n c => ActivationCondition.read_condition n = Ok c)
      kids conds.
Proof.
  induction 1 as [|c rest (Hv & Hr & Hnan) _ IH]; intros kids Hkids;
    inversion Hkids as [|? child ? kids' Hchild Hrest]; subst.
  - split; constructor.
  - destruct (IH _ Hrest) as [Htags Hreads].
    destruct (condition_round_trip c Hv Hr Hnan)
      as (node & Hnode & Htag & Hread).
    rewrite Hchild in Hnode. injection Hnode as <-.
    split; by constructor.
Qed.

Lemma findall_all (kids : list XmlNode) (t : string) attrs :
  Forall (fun child => tag child = t) kids ->
  ElementTree.findall (mkElement "activation-condition" attrs kids) t = kids.
Proof.
  unfold ElementTree.findall. cbn.
  induction 1 as [|child rest Hchild _ IH]; [done|].
  rewrite filter_cons_True by done. by rewrite IH.
Qed.

Lemma rule_lookup_string_rule (r : ActivationRule.t) :
  ActivationCondition.rule_lookup (ActivationCondition.rule_lookup_string r)
  = Ok r.
Proof. by destruct r. Qed.

Lemma composite_round_trip (a : ActivationCondition.t) :
  Forall (fun c => Condition.is_valid c = true /\ reloadable c
                   /\ range_not_nan c)
    (ActivationCondition.conditions a) ->
  ActivationCondition.to_xml a ≫= ActivationCondition.decode = Ok a.
Proof.
  intros Ha.
  destruct (composite_to_xml_spec a) as (node & -> & Htag & Hrule & Hkids).
  rewrite (filter_all_valid _ Ha) in Hkids.
  destruct (written_children_read _ Ha _ Hkids) as [Htags Hreads].
  destruct node as [t attrs kids]. cbn [tag children] in *. subst t.
  cbn [mbind result_bind].
  unfold ActivationCondition.decode, ActivationCondition.from_xml,
    safe_read_str.
  rewrite (safe_read_str_present _ _ _ Hrule). cbn [mbind result_bind].
  rewrite rule_lookup_string_rule.
  rewrite (findall_all kids "condition" attrs Htags).
  rewrite (from_xml_loop_all_ok _ _ _ Hreads).
  by destruct a.
Qed.

End WriteRead.
(** * The claims *)

Section Claims.
Context `{F : Py.Float} `{U : ParseGuidNone}.


(** C3: a condition is valid exactly when its comparison is not the empty
    string and, for a keyboard condition, scan code and extended flag are
    set, for a joystick or vJoy condition, the input type is set; an
    input-action condition needs nothing more. *)
Theorem is_valid_iff (c : Condition.t) :
  Condition.is_valid c = true <->
  Condition.comparison c <> "" /\
  match c with
  | Condition.OfKeyboard k =>
      KeyboardCondition.scan_code k <> None /\
      KeyboardCondition.is_extended k <> None
  | Condition.OfJoystick j => JoystickCondition.input_type j <> None
  | Condition.OfVJoy v => VJoyCondition.input_type v <> None
  | Condition.OfInputAction _ => True
  end.
Proof. apply condition_is_valid_iff. Qed.

(** C2: [to_xml] of a composite returns an [activation-condition] element
    carrying the rule, whose children are the XML forms of the valid
    conditions, in their order; the invalid ones leave no trace and raise
    nothing. *)
Theorem to_xml_writes_valid_conditions (self : ActivationCondition.t) :
  exists node,
    ActivationCondition.to_xml self = Ok node /\
    tag node = "activation-condition" /\
    ElementTree.get node "rule"
    = Some (ActivationCondition.rule_lookup_string
              (ActivationCondition.rule self)) /\
    Forall2 (fun c child => Condition.to_xml c = Ok child)
      (List.filter Condition.is_valid (ActivationCondition.conditions self))
      (children node).
Proof. apply composite_to_xml_spec. Qed.

(** C8: [to_xml] of a composite returns a node whatever its conditions
    are, also when one of them is a joystick condition without input type,
    whose own [to_xml] would raise. *)
Theorem to_xml_total (self : ActivationCondition.t) :
  (exists node, ActivationCondition.to_xml self = Ok node) /\
  forall (j : JoystickCondition.t) before after,
    JoystickCondition.input_type j = None ->
    Condition.to_xml (Condition.OfJoystick j) = Raise LookupFailure /\
    exists node,
      ActivationCondition.to_xml
        (ActivationCondition.__init__
           (before ++ Condition.OfJoystick j :: after)
           (ActivationCondition.rule self))
      = Ok node.
Proof.
  split.
  - destruct (composite_to_xml_spec self) as (node & H & _).
    eauto.
  - intros j before after Hj. split.
    + cbn. unfold JoystickCondition.to_xml. by rewrite Hj.
    + destruct (composite_to_xml_spec
                  (ActivationCondition.__init__
                     (before ++ Condition.OfJoystick j :: after)
                     (ActivationCondition.rule self))) as (node & H & _).
      eauto.
Qed.


(** C10: an object as its constructor builds it has the empty comparison
    and is not valid, whatever its class; a composite that holds only such
    objects is written as an [activation-condition] element without
    children. *)
Theorem fresh_conditions_not_written (conds : list Condition.t)
    (rule : ActivationRule.t) :
  Forall (fun c => In c fresh_conditions) conds ->
  Forall (fun c => Condition.comparison c = ""
                   /\ Condition.is_valid c = false) conds /\
  exists node,
    ActivationCondition.to_xml (ActivationCondition.__init__ conds rule)
    = Ok node /\
    tag node = "activation-condition" /\
    children node = [].
Proof.
  intros Hfresh.
  assert (Forall (fun c => Condition.comparison c = ""
                           /\ Condition.is_valid c = false) conds) as Hinv.
  { eapply Forall_impl; [exact Hfresh|]. cbn.
    intros c [<-|[<-|[<-|[<-|[]]]]]; by split. }
  split; [exact Hinv|].
  destruct (composite_to_xml_spec (ActivationCondition.__init__ conds rule))
    as (node & Hxml & Htag & _ & Hkids).
  exists node. split; [done|]. split; [done|].
  cbn in Hkids.
  replace (List.filter Condition.is_valid conds) with (@nil Condition.t)
    in Hkids; [by inversion Hkids|].
  clear -Hinv. induction Hinv as [|c rest [_ Hc] _ IH]; [done|].
  cbn. by rewrite Hc.
Qed.

(** C7: with no conditions, the composite evaluates to true under [All]
    and to false under [Any], whatever the oracle answers. *)
Theorem evaluate_empty (Oracle : Type)
    (evaluate_condition : Condition.t -> Oracle -> bool) (oracle : Oracle) :
  ActivationCondition.evaluate Oracle evaluate_condition
    (ActivationCondition.__init__ [] ActivationRule.All) oracle = true /\
  ActivationCondition.evaluate Oracle evaluate_condition
    (ActivationCondition.__init__ [] ActivationRule.Any) oracle = false.
Proof. split; reflexivity. Qed.

(** C6: for joystick and for vJoy conditions alike, [to_xml] writes
    [range-low] and [range-high] exactly when the input type is the axis,
    and [from_xml] reads them exactly when the input read is the axis:
    otherwise the range stays as it was and the attributes may be
    absent. An axis condition is written with the text of its bounds and
    reads back with them; a condition that is no axis is written without
    the attributes, and that node reads without an error. *)
Theorem range_attributes_iff_axis :
  (range_follows_axis JoystickCondition.to_xml JoystickCondition.from_xml
     JoystickCondition.input_type JoystickCondition.range /\
   range_follows_axis VJoyCondition.to_xml VJoyCondition.from_xml
     VJoyCondition.input_type VJoyCondition.range) /\
  (range_written_and_read JoystickCondition.to_xml JoystickCondition.from_xml
     JoystickCondition.input_type JoystickCondition.range
     (fun c => exists g, JoystickCondition.device_guid c = GuidValue g) /\
   range_written_and_read VJoyCondition.to_xml VJoyCondition.from_xml
     VJoyCondition.input_type VJoyCondition.range (fun _ => True)).
Proof.
  split; split; split_and!.
  - apply joystick_to_xml_range.
  - intros self node c. apply joystick_from_xml_range.
  - apply joystick_from_xml_ignores_range.
  - apply joystick_from_xml_axis_needs_range.
  - apply vjoy_to_xml_range.
  - intros self node c. apply vjoy_from_xml_range.
  - apply vjoy_from_xml_ignores_range.
  - apply vjoy_from_xml_axis_needs_range.
  - apply joystick_range_written.
  - intros self c ty. apply joystick_read_without_range.
  - intros self c. apply joystick_read_axis.
  - apply vjoy_range_written.
  - intros self c ty Hty Hne _. by apply vjoy_read_without_range.
  - intros self c Hty _. by apply vjoy_read_axis.
Qed.

(** C4, as the code has it: a [rule] that is neither [all] nor [any] ends
    [from_xml] with the [KeyError] of [rule_lookup] for that string, the
    object untouched; a [condition] child whose [condition-type] is not
    registered, met after a known rule and after children that all read,
    ends it with the [KeyError] of [condition_lookup] for that string. *)
Theorem from_xml_unknown_name (self : ActivationCondition.t) (node : XmlNode)
    (key : string) :
  (ElementTree.get node "rule" = Some key ->
   key <> "all" -> key <> "any" ->
   ActivationCondition.from_xml self node = (self, Some (KeyError key))) /\
  (forall before bad after,
     is_ok (safe_read_str node "rule" ≫= ActivationCondition.rule_lookup)
     = true ->
     ElementTree.findall node "condition" = before ++ bad :: after ->
     Forall (fun n => is_ok (ActivationCondition.read_condition n) = true)
       before ->
     ElementTree.get bad "condition-type" = Some key ->
     key ∉ ["keyboard"; "joystick"; "vjoy"; "action"] ->
     (ActivationCondition.from_xml self node).2 = Some (KeyError key)).
Proof.
  split.
  - intros Hrule Hall Hany. unfold ActivationCondition.from_xml, safe_read_str.
    rewrite (safe_read_str_present _ _ _ Hrule). cbn.
    unfold ActivationCondition.rule_lookup. by repeat case_decide.
  - intros before bad after Hrule Hnodes Hbefore Hkey Hnot.
    unfold ActivationCondition.from_xml.
    destruct (safe_read_str node "rule" ≫= ActivationCondition.rule_lookup)
      as [rule|]; [|done].
    pose proof (from_xml_loop_unknown_type before after bad key
                  (ActivationCondition.conditions self) Hbefore Hkey Hnot)
      as Hloop.
    rewrite Hnodes.
    by destruct (ActivationCondition.from_xml_loop _ _).
Qed.

(** C1, as the code has it: a composite whose conditions are all valid
    and reloadable, with no NaN as a bound of an axis range, is read
    back, from the node [to_xml] returns, as the same rule with the same
    conditions in the same order; and such a condition of any class is
    read back, by [from_xml] of a new object of its class, from the node
    its [to_xml] returns. *)
Theorem round_trip (a : ActivationCondition.t) (c : Condition.t) :
  Forall (fun c => Condition.is_valid c = true /\ reloadable c
                   /\ range_not_nan c)
    (ActivationCondition.conditions a) ->
  Condition.is_valid c = true ->
  reloadable c ->
  range_not_nan c ->
  ActivationCondition.to_xml a ≫= ActivationCondition.decode = Ok a /\
  Condition.to_xml c ≫= Condition.from_xml (new_instance c) = Ok c.
Proof.
  intros Ha Hv Hr Hnan. split.
  - apply composite_round_trip, Ha.
  - apply condition_round_trip_new; done.
Qed.

End Claims.

(** * Further properties *)

(** Two readers that agree step by step agree. *)
Lemma bind_ext {A B} (m1 m2 : result A) (f1 f2 : A -> result B) :
  m1 = m2 -> (forall a, f1 a = f2 a) -> m1 ≫= f1 = m2 ≫= f2.
Proof. intros -> Hf. destruct m2; cbn; auto. Qed.

Lemma safe_read_ext {A} n1 n2 key (type_cast : string -> option A) :
  ElementTree.get n1 key = ElementTree.get n2 key ->
  safe_read n1 key type_cast = safe_read n2 key type_cast.
Proof. unfold safe_read. by intros ->. Qed.

Section Further.
Context `{F : Py.Float} `{U : ParseGuidNone}.

(** The readers look at the node through the attributes of
    [read_attributes] alone. *)
Lemma condition_from_xml_ext (self : Condition.t) (n1 n2 : XmlNode) :
  (forall key, In key (read_attributes self) ->
               ElementTree.get n1 key = ElementTree.get n2 key) ->
  Condition.from_xml self n1 = Condition.from_xml self n2.
Proof.
  intros Hsame.
  destruct self as [k|j|v|a]; cbn [Condition.from_xml]; f_equal;
    unfold KeyboardCondition.from_xml, JoystickCondition.from_xml,
      VJoyCondition.from_xml, InputActionCondition.from_xml, safe_read_str;
    repeat first
      [ reflexivity
      | case_decide
      | apply bind_ext; [|intros ?]
      | apply safe_read_ext; apply Hsame; cbn; tauto
      | f_equal; apply Hsame; cbn; tauto ].
Qed.

(** X1: the [from_xml] of a class reads nothing but its own attributes:
    the tag of the node, its children and every other attribute, the
    [condition-type] among them, do not change what it returns. *)
Theorem from_xml_ignores_the_rest (self : Condition.t) (node : XmlNode)
    (key value t : string) (kids : list XmlNode) :
  ~ In key (read_attributes self) ->
  Condition.from_xml self
    (mkElement t (<[key := value]> (attrib node)) kids)
  = Condition.from_xml self node.
Proof.
  intros Hkey. apply condition_from_xml_ext. intros key' Hin.
  unfold ElementTree.get. cbn. apply lookup_insert_ne. by intros ->.
Qed.

(** What a completed read leaves in the fields. *)
Lemma keyboard_from_xml_fields (self c : KeyboardCondition.t) node :
  KeyboardCondition.from_xml self node = Ok c ->
  ElementTree.get node "comparison" = Some (KeyboardCondition.comparison c) /\
  KeyboardCondition.scan_code c <> None /\
  KeyboardCondition.is_extended c <> None.
Proof.
  unfold KeyboardCondition.from_xml. intros H. bind_inv H.
  injection H as <-. cbn. by apply safe_read_str_get in E.
Qed.

Lemma joystick_from_xml_fields (self c : JoystickCondition.t) node :
  JoystickCondition.from_xml self node = Ok c ->
  ElementTree.get node "comparison"
  = Some (JoystickCondition.comparison c) /\
  JoystickCondition.input_type c <> None /\
  (exists g, JoystickCondition.device_guid c = GuidValue g).
Proof.
  unfold JoystickCondition.from_xml. intros H. bind_inv H.
  injection H as <-. cbn. apply safe_read_str_get in E. eauto.
Qed.

Lemma vjoy_from_xml_fields (self c : VJoyCondition.t) node :
  VJoyCondition.from_xml self node = Ok c ->
  ElementTree.get node "comparison" = Some (VJoyCondition.comparison c) /\
  VJoyCondition.input_type c <> None.
Proof.
  unfold VJoyCondition.from_xml. intros H. bind_inv H.
  injection H as <-. cbn. by apply safe_read_str_get in E.
Qed.

Lemma input_action_from_xml_fields (self c : InputActionCondition.t) node :
  InputActionCondition.from_xml self node = Ok c ->
  ElementTree.get node "comparison"
  = Some (InputActionCondition.comparison c).
Proof.
  unfold InputActionCondition.from_xml. intros H. bind_inv H.
  injection H as <-. cbn. by apply safe_read_str_get in E.
Qed.

Lemma fmap_ok_inv {A B} (f : A -> B) (m : result A) (b : B) :
  f <$> m = Ok b -> exists a, m = Ok a /\ b = f a.
Proof. destruct m as [a|]; [|done]. intros [= <-]. eauto. Qed.

(** A condition read into a new object. *)
Lemma from_xml_new_instance (c0 c : Condition.t) (node : XmlNode) :
  Condition.from_xml (new_instance c0) node = Ok c ->
  ElementTree.get node "comparison" = Some (Condition.comparison c) /\
  storable c.
Proof.
  destruct c0 as [k0|j0|v0|a0]; cbn [new_instance Condition.from_xml];
    intros (x & Hx & ->)%fmap_ok_inv; cbn [Condition.comparison storable].
  - by apply keyboard_from_xml_fields in Hx.
  - pose proof (joystick_from_xml_range _ _ _ Hx) as Hrange.
    apply joystick_from_xml_fields in Hx as (Hcmp & Hty & Hg).
    split; [done|]. split; [done|]. split; [done|].
    intros Hna. by case_decide.
  - pose proof (vjoy_from_xml_range _ _ _ Hx) as Hrange.
    apply vjoy_from_xml_fields in Hx as (Hcmp & Hty).
    split; [done|]. split; [done|].
    intros Hna. by case_decide.
  - by apply input_action_from_xml_fields in Hx.
Qed.

Lemma storable_reloadable (c : Condition.t) : storable c -> reloadable c.
Proof. destruct c; cbn; tauto. Qed.

Lemma storable_valid (c : Condition.t) :
  storable c -> Condition.comparison c <> "" -> Condition.is_valid c = true.
Proof.
  intros Hs Hc. apply condition_is_valid_iff. split; [done|].
  destruct c; cbn in *; tauto.
Qed.

Lemma read_condition_new_instance (node : XmlNode) (c : Condition.t) :
  ActivationCondition.read_condition node = Ok c ->
  exists c0, Condition.from_xml (new_instance c0) node = Ok c.
Proof.
  unfold ActivationCondition.read_condition. intros H. bind_inv H.
  unfold ActivationCondition.condition_lookup in E0.
  repeat case_decide; try discriminate; injection E0 as <-;
    first
      [ by exists (Condition.OfKeyboard KeyboardCondition.__init__)
      | by exists (Condition.OfJoystick JoystickCondition.__init__)
      | by exists (Condition.OfVJoy VJoyCondition.__init__)
      | by exists (Condition.OfInputAction InputActionCondition.__init__) ].
Qed.

Lemma read_condition_reloadable (node : XmlNode) (c : Condition.t) :
  ActivationCondition.read_condition node = Ok c -> reloadable c.
Proof.
  intros [c0 [_ Hs]%from_xml_new_instance]%read_condition_new_instance.
  by apply storable_reloadable.
Qed.

(** X2: a condition that the composite's reader has read is reloadable,
    carries the comparison attribute as its comparison, and is valid
    exactly when that attribute is not the empty string. *)
Theorem read_condition_result (node : XmlNode) (c : Condition.t) :
  ActivationCondition.read_condition node = Ok c ->
  reloadable c /\
  ElementTree.get node "comparison" = Some (Condition.comparison c) /\
  (Condition.is_valid c = true
   <-> ElementTree.get node "comparison" <> Some "").
Proof.
  intros [c0 [Hcmp Hs]%from_xml_new_instance]%read_condition_new_instance.
  split; [by apply storable_reloadable|]. split; [done|].
  rewrite Hcmp. split.
  - intros [Hne _]%condition_is_valid_iff. congruence.
  - intros Hne. apply storable_valid; [done|]. congruence.
Qed.

(** The writing loop does not see the conditions that are not valid. *)
Lemma to_xml_loop_filter (conds : list Condition.t) : forall node,
  ActivationCondition.to_xml_loop node (List.filter Condition.is_valid conds)
  = ActivationCondition.to_xml_loop node conds.
Proof.
  induction conds as [|c rest IH]; intros node; [done|].
  cbn. destruct (Condition.is_valid c) eqn:Hv; [|apply IH].
  cbn. rewrite Hv. destruct (Condition.to_xml c); cbn; [apply IH|done].
Qed.

(** X3: [to_xml] returns the same node for a composite and for the
    composite without its invalid conditions. *)
Theorem to_xml_without_invalid (a : ActivationCondition.t) :
  ActivationCondition.to_xml (without_invalid a)
  = ActivationCondition.to_xml a.
Proof. unfold ActivationCondition.to_xml. cbn. apply to_xml_loop_filter. Qed.

Lemma filter_valid_forall (conds : list Condition.t) :
  Forall (fun c => Condition.is_valid c = true ->
                   reloadable c /\ range_not_nan c) conds ->
  Forall (fun c => Condition.is_valid c = true /\ reloadable c
                   /\ range_not_nan c)
    (List.filter Condition.is_valid conds).
Proof.
  induction 1 as [|c rest Hc _ IH]; cbn; [constructor|].
  destruct (Condition.is_valid c) eqn:Hv; [|done].
  constructor; [|done]. split; auto.
Qed.

Lemma round_trip_drops_invalid_aux (a : ActivationCondition.t) :
  Forall (fun c => Condition.is_valid c = true ->
                   reloadable c /\ range_not_nan c)
    (ActivationCondition.conditions a) ->
  ActivationCondition.to_xml a ≫= ActivationCondition.decode
  = Ok (without_invalid a).
Proof.
  intros Ha.
  unfold ActivationCondition.to_xml.
  rewrite <- to_xml_loop_filter.
  apply (composite_round_trip (without_invalid a)).
  by apply filter_valid_forall.
Qed.

(** X4: when the valid conditions of a composite are reloadable and have
    no NaN as a bound of an axis range, reading the node [to_xml] returns
    gives the composite without its invalid conditions: same rule, the
    valid conditions in their order. *)
Theorem round_trip_drops_invalid (a : ActivationCondition.t) :
  Forall (fun c => Condition.is_valid c = true ->
                   reloadable c /\ range_not_nan c)
    (ActivationCondition.conditions a) ->
  ActivationCondition.to_xml a ≫= ActivationCondition.decode
  = Ok (without_invalid a).
Proof. apply round_trip_drops_invalid_aux. Qed.


Lemma keyboard_write_read (self c : KeyboardCondition.t) :
  KeyboardCondition.scan_code c <> None ->
  KeyboardCondition.is_extended c <> None ->
  KeyboardCondition.to_xml c ≫= KeyboardCondition.from_xml self = Ok c.
Proof.
  intros Hcode Hext.
  destruct c as [[cmp] [code|] [ext|]]; try done.
  cbn. unfold KeyboardCondition.from_xml. read_attr.
  rewrite int_str_int. cbn. by rewrite parse_bool_str_bool.
Qed.

(** X6: for a condition with no NaN as a bound of an axis range, the
    node its [to_xml] returns reads back as the same object, through
    [from_xml] of a new object of its class, exactly when the condition
    is storable; whether the comparison is empty plays no part. *)
Theorem round_trip_iff_storable (c : Condition.t) :
  range_not_nan c ->
  Condition.to_xml c ≫= Condition.from_xml (new_instance c) = Ok c
  <-> storable c.
Proof.
  intros Hnan. split.
  - destruct (Condition.to_xml c) as [node|]; [cbn|done].
    by intros [_ Hs]%from_xml_new_instance.
  - destruct c as [k|j|v|a];
      cbn [storable reloadable range_not_nan Condition.to_xml new_instance]
        in *.
    + intros [Hcode Hext].
      pose proof (keyboard_write_read KeyboardCondition.__init__ k
                    Hcode Hext) as Hk.
      destruct (KeyboardCondition.to_xml k); [cbn in *|done].
      by rewrite Hk.
    + intros (Hty & [g Hg] & Hrange).
      destruct (JoystickCondition.input_type j) as [ty|] eqn:Hin; [|done].
      destruct (joystick_round_trip JoystickCondition.__init__ j g ty)
        as (node & -> & _ & _ & Hread); [done..| | |].
      { intros Hne. apply Hrange. congruence. }
      { intros ->. by apply Hnan. }
      cbn. by rewrite Hread.
    + intros (Hty & Hrange).
      destruct (VJoyCondition.input_type v) as [ty|] eqn:Hin; [|done].
      destruct (vjoy_round_trip VJoyCondition.__init__ v ty)
        as (node & -> & _ & _ & Hread); [done| | |].
      { intros Hne. apply Hrange. congruence. }
      { intros ->. by apply Hnan. }
      cbn. by rewrite Hread.
    + intros _.
      destruct (input_action_round_trip InputActionCondition.__init__ a)
        as (node & -> & _ & _ & Hread).
      cbn. by rewrite Hread.
Qed.

(** X7: the two directions that the dictionary [rule_lookup] holds are
    inverse to each other. *)
Theorem rule_lookup_inverse (key : string) (rule : ActivationRule.t) :
  ActivationCondition.rule_lookup key = Ok rule
  <-> ActivationCondition.rule_lookup_string rule = key.
Proof.
  split.
  - unfold ActivationCondition.rule_lookup.
    repeat case_decide; intros [= <-]; by subst.
  - intros <-. by destruct rule.
Qed.

(** X8: whatever a condition's [to_xml] returns is a [condition] element
    without children whose [condition-type] is the key under which
    [condition_lookup] holds the class of the condition. *)
Theorem to_xml_names_own_class (c : Condition.t) (node : XmlNode) :
  Condition.to_xml c = Ok node ->
  tag node = "condition" /\
  children node = [] /\
  exists key,
    ElementTree.get node "condition-type" = Some key /\
    ActivationCondition.condition_lookup key = Ok (new_instance c).
Proof.
  destruct c as [k|j|v|a]; cbn [Condition.to_xml new_instance];
    unfold KeyboardCondition.to_xml, JoystickCondition.to_xml,
      VJoyCondition.to_xml, InputActionCondition.to_xml;
    intros H; bind_inv H; injection H as <-;
    (split; [by repeat case_decide|]); (split; [by repeat case_decide|]).
  - exists "keyboard". by read_attr.
  - exists "joystick". by case_decide; read_attr.
  - exists "vjoy". by case_decide; read_attr.
  - exists "action". by read_attr.
Qed.

(** X9: [from_xml] of the composite looks at the [rule] attribute and at
    the children tagged [condition], and at nothing else of the node: its
    tag is not checked and children with another tag are skipped. *)
Theorem from_xml_skips_other_children (self : ActivationCondition.t)
    (t t' : string) (attrs : gmap string string)
    (before after : list XmlNode) (other : XmlNode) :
  tag other <> "condition" ->
  ActivationCondition.from_xml self
    (mkElement t attrs (before ++ other :: after))
  = ActivationCondition.from_xml self (mkElement t' attrs (before ++ after)).
Proof.
  intros Hother.
  unfold ActivationCondition.from_xml, ElementTree.findall, safe_read_str,
    safe_read, ElementTree.get. cbn [attrib children].
  by rewrite !filter_app, filter_cons_False.
Qed.

Lemma from_xml_loop_failure (before after : list XmlNode) (bad : XmlNode)
    (e : Exception) : forall (cs conds : list Condition.t),
  Forall2 (fun n c => ActivationCondition.read_condition n = Ok c)
    before cs ->
  ActivationCondition.read_condition bad = Raise e ->
  ActivationCondition.from_xml_loop conds (before ++ bad :: after)
  = (conds ++ cs, Some e).
Proof.
  intros cs conds Hbefore Hbad. revert conds.
  induction Hbefore as [|n c ns cs Hn _ IH]; intros conds; cbn.
  - by rewrite Hbad, app_nil_r.
  - rewrite Hn, IH. by rewrite <- app_assoc.
Qed.

(** X10: when a [condition] child fails to read, [from_xml] of the
    composite stops there with that exception: the rule is already
    replaced, the conditions read before the failing child are appended,
    and the children after it are not looked at. *)
Theorem from_xml_stops_at_first_failure (self : ActivationCondition.t)
    (node : XmlNode) (key : string) (rule : ActivationRule.t)
    (before after : list XmlNode) (bad : XmlNode)
    (cs : list Condition.t) (e : Exception) :
  ElementTree.get node "rule" = Some key ->
  ActivationCondition.rule_lookup key = Ok rule ->
  ElementTree.findall node "condition" = before ++ bad :: after ->
  Forall2 (fun n c => ActivationCondition.read_condition n = Ok c)
    before cs ->
  ActivationCondition.read_condition bad = Raise e ->
  ActivationCondition.from_xml self node
  = ({| ActivationCondition.rule := rule;
        ActivationCondition.conditions :=
          ActivationCondition.conditions self ++ cs |}, Some e).
Proof.
  intros Hkey Hrule Hnodes Hbefore Hbad.
  unfold ActivationCondition.from_xml, safe_read_str.
  rewrite (safe_read_str_present _ _ _ Hkey). cbn [mbind result_bind].
  by rewrite Hrule, Hnodes, (from_xml_loop_failure _ _ _ _ _ _ Hbefore Hbad).
Qed.

(** X11: [from_xml] of the composite adds to what is there: a second
    completed read of the same node into the same object appends the
    conditions of the node once more. *)
Theorem from_xml_twice (self self' : ActivationCondition.t)
    (node : XmlNode) :
  ActivationCondition.from_xml self node = (self', None) ->
  exists new : list Condition.t,
    ActivationCondition.conditions self'
    = ActivationCondition.conditions self ++ new /\
    ActivationCondition.from_xml self' node
    = ({| ActivationCondition.rule := ActivationCondition.rule self';
          ActivationCondition.conditions :=
            ActivationCondition.conditions self ++ new ++ new |}, None).
Proof.
  unfold ActivationCondition.from_xml.
  destruct (safe_read_str node "rule" ≫= ActivationCondition.rule_lookup)
    as [rule|]; [|done].
  destruct (from_xml_loop_spec (ElementTree.findall node "condition")
              (ActivationCondition.conditions self))
    as (new & Hnew & Hall).
  destruct (ActivationCondition.from_xml_loop
              (ActivationCondition.conditions self) _) as [conds e].
  cbn in Hnew, Hall. intros [= <- ->]. cbn.
  exists new. split; [done|].
  rewrite (from_xml_loop_all_ok _ conds new (Hall eq_refl)).
  by rewrite Hnew, <- app_assoc.
Qed.

(** X12: the node a condition's [to_xml] returns carries the attributes
    of [written_attributes] and no other. *)
Theorem to_xml_attributes (c : Condition.t) (node : XmlNode) (key : string) :
  Condition.to_xml c = Ok node ->
  is_Some (ElementTree.get node key) <-> In key (written_attributes c).
Proof.
  intros Hnode. unfold ElementTree.get.
  rewrite <- elem_of_dom, <- list_elem_of_In.
  destruct c as [k|j|v|a]; cbn [Condition.to_xml written_attributes] in *;
    unfold KeyboardCondition.to_xml, JoystickCondition.to_xml,
      VJoyCondition.to_xml, InputActionCondition.to_xml, range_attributes
      in *;
    bind_inv Hnode; injection Hnode as <-;
    repeat match goal with
           | |- context [decide ?P] => destruct (decide P)
           end;
    cbn; rewrite ?dom_insert_L, dom_empty_L;
    rewrite ?elem_of_union, ?elem_of_singleton, elem_of_empty,
      ?elem_of_cons, elem_of_nil;
    tauto.
Qed.

Lemma schema_only_no_key_error {A} (r : result A) :
  schema_only r = true -> no_key_error r = true.
Proof. by destruct r as [|[]]. Qed.

Lemma bind_no_key_error {A B} (m : result A) (f : A -> result B) :
  no_key_error m = true ->
  (forall a, m = Ok a -> no_key_error (f a) = true) ->
  no_key_error (m ≫= f) = true.
Proof. destruct m as [a|[]]; cbn; auto; done. Qed.

Lemma parse_guid_no_key_error (value : option string) :
  no_key_error (parse_guid value) = true.
Proof.
  destruct value as [s|].
  - apply schema_only_no_key_error, parse_guid_schema_only.
  - cbn. pose proof parse_guid_None_no_KeyError as Hno.
    destruct parse_guid_None as [|[]]; try done. by destruct (Hno key).
Qed.

Lemma condition_from_xml_no_key_error (self : Condition.t) (node : XmlNode) :
  no_key_error (Condition.from_xml self node) = true.
Proof.
  destruct self as [k|j|v|a]; cbn [Condition.from_xml];
    match goal with
    | |- no_key_error (_ <$> ?m) = true =>
        cut (no_key_error m = true); [by destruct m as [|[]]|]
    end;
    unfold KeyboardCondition.from_xml, JoystickCondition.from_xml,
      VJoyCondition.from_xml, InputActionCondition.from_xml, safe_read_str;
    repeat first
      [ reflexivity
      | match goal with
        | |- context [decide ?P] => destruct (decide P)
        end
      | apply bind_no_key_error;
        [ first [ apply parse_guid_no_key_error
                | apply schema_only_no_key_error; solve [auto with schema] ]
        | intros ? _ ]
      | apply bind_no_key_error; [|intros ? _] ].
Qed.

(** A [KeyError] out of the body of the loop is the one of
    [condition_lookup]. *)
Lemma read_condition_key_error (n : XmlNode) (key : string) :
  ActivationCondition.read_condition n = Raise (KeyError key) ->
  ElementTree.get n "condition-type" = Some key /\
  key ∉ ["keyboard"; "joystick"; "vjoy"; "action"].
Proof.
  unfold ActivationCondition.read_condition, safe_read_str, safe_read.
  destruct (ElementTree.get n "condition-type") as [ty|];
    [cbn [mbind result_bind]|done].
  unfold ActivationCondition.condition_lookup.
  repeat case_decide; cbn [mbind result_bind];
    try (intros Hread;
         match type of Hread with
         | Condition.from_xml ?s ?n = _ =>
             pose proof (condition_from_xml_no_key_error s n) as Hs;
             rewrite Hread in Hs; discriminate Hs
         end).
  intros [= <-]. split; [done|]. intros Hin.
  repeat (apply elem_of_cons in Hin as [Hin|Hin]; [done|]).
  by apply elem_of_nil in Hin.
Qed.

Lemma from_xml_loop_key_error (nodes : list XmlNode) (key : string) :
  forall conds,
    (ActivationCondition.from_xml_loop conds nodes).2 = Some (KeyError key) ->
    exists child,
      In child nodes /\
      ElementTree.get child "condition-type" = Some key /\
      key ∉ ["keyboard"; "joystick"; "vjoy"; "action"].
Proof.
  induction nodes as [|n rest IH]; intros conds; cbn; [done|].
  destruct (ActivationCondition.read_condition n) as [c|e] eqn:Hn; cbn.
  - intros (child & Hin & H)%IH. exists child. tauto.
  - intros [= ->]. exists n. split; [by left|].
    by apply read_condition_key_error.
Qed.

(** X13: [from_xml] of the composite ends with a [KeyError] only for a
    [rule] attribute that is neither [all] nor [any], or for a
    [condition] child whose [condition-type] is not registered; the key
    of the error is that text. *)
Theorem from_xml_key_error_cause (self : ActivationCondition.t)
    (node : XmlNode) (key : string) :
  (ActivationCondition.from_xml self node).2 = Some (KeyError key) ->
  (ElementTree.get node "rule" = Some key /\ key <> "all" /\ key <> "any")
  \/
  (exists child,
     In child (ElementTree.findall node "condition") /\
     ElementTree.get child "condition-type" = Some key /\
     key ∉ ["keyboard"; "joystick"; "vjoy"; "action"]).
Proof.
  unfold ActivationCondition.from_xml, safe_read_str, safe_read.
  destruct (ElementTree.get node "rule") as [text|]; [cbn|done].
  unfold ActivationCondition.rule_lookup.
  repeat case_decide; cbn.
  3: { intros [= ->]. by left. }
  all: destruct (ActivationCondition.from_xml_loop _ _) as [conds e] eqn:Hloop;
    cbn; intros ->; right;
    apply (from_xml_loop_key_error _ _ (ActivationCondition.conditions self));
    by rewrite Hloop.
Qed.

(** X14: [from_xml] of a condition overwrites the object: what it returns
    for a node is the same for any two objects of one class, as long as
    they agree on the range, the one field a read can leave in place. *)
Theorem from_xml_overwrites (self self' : Condition.t) (node : XmlNode) :
  new_instance self = new_instance self' ->
  kept_range self = kept_range self' ->
  Condition.from_xml self node = Condition.from_xml self' node.
Proof.
  destruct self as [k|j|v|a], self' as [k'|j'|v'|a']; try done;
    cbn [kept_range Condition.from_xml]; intros _ Hrange; f_equal;
    try reflexivity; injection Hrange as Hrange;
    unfold JoystickCondition.from_xml, VJoyCondition.from_xml;
    by rewrite Hrange.
Qed.

End Further.

(** * Concrete conditions *)

(** The floats with an integral value, and NaN, as an instance of
    [Py.Float]. *)
Definition integral_float : Py.Float :=
  {| Py.float := IntegralFloat.t;
     Py.float_zero := IntegralFloat.Finite 0;
     Py.is_nan := IntegralFloat.is_nan;
     Py.str_float := IntegralFloat.str;
     Py.to_float := IntegralFloat.of_str;
     Py.to_float_str := integral_of_str_str |}.

(** [parse_guid(None)] raising a [TypeError], as an instance of
    [ParseGuidNone]. *)
Definition parse_guid_type_error : ParseGuidNone :=
  {| parse_guid_None := parse_guid_None_raises;
     parse_guid_None_no_KeyError := parse_guid_None_raises_no_KeyError |}.

Module Examples.
#[local] Existing Instance integral_float.
#[local] Existing Instance parse_guid_type_error.

(** The key with scan code 30, pressed. *)
Definition key_pressed : Condition.t :=
  Condition.OfKeyboard
    {| KeyboardCondition.super := AbstractCondition.Build "pressed";
       KeyboardCondition.scan_code := Some 30%Z;
       KeyboardCondition.is_extended := Some false |}.

(** Axis 2 of vJoy device 1 outside of [-1.0, 1.0]. *)
Definition vjoy_axis : VJoyCondition.t :=
  {| VJoyCondition.super := AbstractCondition.Build "outside";
     VJoyCondition.vjoy_id := 1;
     VJoyCondition.input_type := Some InputType.JoystickAxis;
     VJoyCondition.input_id := 2;
     VJoyCondition.range := (IntegralFloat.Finite (-1), IntegralFloat.Finite 1) |}.

(** Button 2 of vJoy device 1, pressed. *)
Definition vjoy_button : VJoyCondition.t :=
  {| VJoyCondition.super := AbstractCondition.Build "pressed";
     VJoyCondition.vjoy_id := 1;
     VJoyCondition.input_type := Some InputType.JoystickButton;
     VJoyCondition.input_id := 2;
     VJoyCondition.range := (IntegralFloat.Finite 0, IntegralFloat.Finite 0) |}.

Definition stick_guid : Guid :=
  MkGuid xb4 xca x57 x20 x11 xd0 x11 xe9 x80 x02 x44 x45 x53 x54 x00 x00.

(** Button 1 of the stick with that GUID, pressed. *)
Definition stick_button : Condition.t :=
  Condition.OfJoystick
    {| JoystickCondition.super := AbstractCondition.Build "pressed";
       JoystickCondition.device_guid := GuidValue stick_guid;
       JoystickCondition.input_type := Some InputType.JoystickButton;
       JoystickCondition.input_id := 1;
       JoystickCondition.range := (IntegralFloat.Finite 0, IntegralFloat.Finite 0);
       JoystickCondition.device_name := "stick" |}.

(** A joystick condition as an editor leaves it that sets the comparison,
    the input type and the input id of a new object, and nothing else:
    [device_guid] is still the integer of the constructor. *)
Definition button_without_device : Condition.t :=
  Condition.OfJoystick
    {| JoystickCondition.super := AbstractCondition.Build "pressed";
       JoystickCondition.device_guid := GuidUnset;
       JoystickCondition.input_type := Some InputType.JoystickButton;
       JoystickCondition.input_id := 1;
       JoystickCondition.range := (IntegralFloat.Finite 0, IntegralFloat.Finite 0);
       JoystickCondition.device_name := "" |}.

(** A button condition whose range is not the one of a new object. *)
Definition button_with_range : VJoyCondition.t :=
  {| VJoyCondition.super := AbstractCondition.Build "pressed";
     VJoyCondition.vjoy_id := 1;
     VJoyCondition.input_type := Some InputType.JoystickButton;
     VJoyCondition.input_id := 2;
     VJoyCondition.range := (IntegralFloat.Finite (-1), IntegralFloat.Finite 1) |}.

Definition any_of_two : ActivationCondition.t :=
  ActivationCondition.__init__
    [key_pressed; Condition.OfVJoy vjoy_axis] ActivationRule.Any.

Definition empty_all : ActivationCondition.t :=
  ActivationCondition.__init__ [] ActivationRule.All.

(** [<condition condition-type="keyboard" comparison="pressed"
    extended="true"/>]: no [scan-code]. *)
Definition key_node_without_scan_code : XmlNode :=
  mkElement "condition"
    (<["condition-type" := "keyboard"]>
       (<["comparison" := "pressed"]> (<["extended" := "true"]> ∅))) [].

(** [<condition condition-type="keyboard" input="keyboard"
    comparison="pressed" scan-code="30" extended="false"/>] *)
Definition key_node : XmlNode :=
  mkElement "condition"
    (<["condition-type" := "keyboard"]>
       (<["input" := "keyboard"]>
          (<["comparison" := "pressed"]>
             (<["scan-code" := "30"]> (<["extended" := "false"]> ∅))))) [].

(** [<condition condition-type="mouse"/>] *)
Definition mouse_node : XmlNode :=
  mkElement "condition" (<["condition-type" := "mouse"]> ∅) [].

(** [<activation-condition rule="both"/>] *)
Definition rule_both_node : XmlNode :=
  mkElement "activation-condition" (<["rule" := "both"]> ∅) [].

(** [<activation-condition rule="any">] with the key and the mouse
    condition. *)
Definition key_and_mouse_node : XmlNode :=
  mkElement "activation-condition" (<["rule" := "any"]> ∅)
    [key_node; mouse_node].

(** [<activation-condition rule="any">] with the key condition twice. *)
Definition two_keys_node : XmlNode :=
  mkElement "activation-condition" (<["rule" := "any"]> ∅)
    [key_node; key_node].

(** [<condition condition-type="vjoy" input="axis" comparison="outside"
    id="2" vjoy-id="1"/>]: an axis without its range. *)
Definition axis_node_without_range : XmlNode :=
  mkElement "condition"
    (<["condition-type" := "vjoy"]>
       (<["input" := "axis"]>
          (<["comparison" := "outside"]>
             (<["id" := "2"]> (<["vjoy-id" := "1"]> ∅))))) [].

(** [<condition condition-type="vjoy" input="button" comparison="pressed"
    id="2" vjoy-id="1"/>] *)
Definition button_node : XmlNode :=
  mkElement "condition"
    (<["condition-type" := "vjoy"]>
       (<["input" := "button"]>
          (<["comparison" := "pressed"]>
             (<["id" := "2"]> (<["vjoy-id" := "1"]> ∅))))) [].

(** [<condition condition-type="joystick" input="button"
    comparison="pressed" id="1"
    device-guid="{B4CA5720-11D0-11E9-8002-444553540000}"/>]: no
    [device-name]. *)
Definition stick_node_without_name : XmlNode :=
  mkElement "condition"
    (<["condition-type" := "joystick"]>
       (<["input" := "button"]>
          (<["comparison" := "pressed"]>
             (<["id" := "1"]>
                (<["device-guid" := guid_str stick_guid]> ∅))))) [].

(** [<condition condition-type="joystick" input="button"
    comparison="pressed" id="1" device-name="stick"/>]: no
    [device-guid]. *)
Definition stick_node_without_guid : XmlNode :=
  mkElement "condition"
    (<["condition-type" := "joystick"]>
       (<["input" := "button"]>
          (<["comparison" := "pressed"]>
             (<["id" := "1"]> (<["device-name" := "stick"]> ∅))))) [].



Lemma fresh_conditions_not_written_witness :
  Forall (fun c => In c fresh_conditions)
    [Condition.OfKeyboard KeyboardCondition.__init__;
     Condition.OfVJoy VJoyCondition.__init__] /\
  exists node,
    ActivationCondition.to_xml
      (ActivationCondition.__init__
         [Condition.OfKeyboard KeyboardCondition.__init__;
          Condition.OfVJoy VJoyCondition.__init__] ActivationRule.Any)
    = Ok node /\
    tag node = "activation-condition" /\
    children node = [].
Proof.
  assert (Forall (fun c => In c fresh_conditions)
            [Condition.OfKeyboard KeyboardCondition.__init__;
             Condition.OfVJoy VJoyCondition.__init__]) as Hfresh.
  { repeat constructor; cbn; tauto. }
  split; [exact Hfresh|].
  exact (proj2 (fresh_conditions_not_written _ ActivationRule.Any Hfresh)).
Defined.

Lemma round_trip_witness :
  Forall (fun c => Condition.is_valid c = true /\ reloadable c
                   /\ range_not_nan c)
    (ActivationCondition.conditions any_of_two) /\
  Condition.is_valid stick_button = true /\
  reloadable stick_button /\
  range_not_nan stick_button /\
  ActivationCondition.to_xml any_of_two ≫= ActivationCondition.decode
  = Ok any_of_two /\
  Condition.to_xml stick_button
  ≫= Condition.from_xml (new_instance stick_button)
  = Ok stick_button.
Proof.
  assert (reloadable stick_button) as Hr.
  { split; [by exists stick_guid|reflexivity]. }
  assert (range_not_nan stick_button) as Hnan.
  { intros H. discriminate H. }
  assert (Forall (fun c => Condition.is_valid c = true /\ reloadable c
                           /\ range_not_nan c)
            (ActivationCondition.conditions any_of_two)) as Ha.
  { repeat constructor; cbn; congruence. }
  split; [exact Ha|]. split; [reflexivity|]. split; [exact Hr|].
  split; [exact Hnan|].
  apply (round_trip any_of_two stick_button);
    [exact Ha|reflexivity|exact Hr|exact Hnan].
Defined.

(** Axis 2 of vJoy device 1 with the NaN of [float("-nan")] as its lower
    bound, as [from_xml] leaves it for [range-low="-nan"]. *)
Definition axis_with_nan : VJoyCondition.t :=
  {| VJoyCondition.super := AbstractCondition.Build "outside";
     VJoyCondition.vjoy_id := 1;
     VJoyCondition.input_type := Some InputType.JoystickAxis;
     VJoyCondition.input_id := 2;
     VJoyCondition.range :=
       (IntegralFloat.NaN true, IntegralFloat.Finite 1) |}.

(** The same with the NaN of [float("nan")]. *)
Definition axis_with_other_nan : VJoyCondition.t :=
  {| VJoyCondition.super := AbstractCondition.Build "outside";
     VJoyCondition.vjoy_id := 1;
     VJoyCondition.input_type := Some InputType.JoystickAxis;
     VJoyCondition.input_id := 2;
     VJoyCondition.range :=
       (IntegralFloat.NaN false, IntegralFloat.Finite 1) |}.

(** C1 as stated fails: the joystick condition without a device is valid,
    and so is written, with [device-guid="0"]; reading that node back
    raises in [parse_guid], for the condition alone and for a composite
    that holds it. A valid button condition whose range is not the one
    of a new object comes back with the range of a new object, since a
    range is only written for an axis. And a valid axis condition with a
    NaN as a bound is written with ["nan"] and comes back with another
    value. *)
Lemma round_trip_counterexample :
  Condition.is_valid button_without_device = true /\
  Condition.to_xml button_without_device
  ≫= Condition.from_xml (new_instance button_without_device)
  = Raise (SchemaError Malformed "0") /\
  ActivationCondition.to_xml
    (ActivationCondition.__init__ [button_without_device] ActivationRule.All)
  ≫= ActivationCondition.decode
  = Raise (SchemaError Malformed "0") /\
  VJoyCondition.is_valid button_with_range = true /\
  VJoyCondition.to_xml button_with_range
  ≫= VJoyCondition.from_xml VJoyCondition.__init__
  = Ok vjoy_button /\
  vjoy_button <> button_with_range /\
  VJoyCondition.is_valid axis_with_nan = true /\
  VJoyCondition.to_xml axis_with_nan
  ≫= VJoyCondition.from_xml VJoyCondition.__init__
  = Ok axis_with_other_nan /\
  axis_with_other_nan <> axis_with_nan.
Proof. split_and!; try (vm_compute; reflexivity); discriminate. Qed.

Lemma from_xml_unknown_name_witness :
  ElementTree.get rule_both_node "rule" = Some "both" /\
  ActivationCondition.from_xml empty_all rule_both_node
  = (empty_all, Some (KeyError "both")) /\
  ElementTree.get mouse_node "condition-type" = Some "mouse" /\
  (ActivationCondition.from_xml empty_all key_and_mouse_node).2
  = Some (KeyError "mouse").
Proof.
  split; [reflexivity|]. split.
  - apply (proj1 (from_xml_unknown_name empty_all rule_both_node "both"));
      [reflexivity|discriminate|discriminate].
  - split; [reflexivity|].
    apply (proj2 (from_xml_unknown_name empty_all key_and_mouse_node "mouse")
             [key_node] mouse_node []); [reflexivity|reflexivity| |reflexivity|].
    + repeat constructor.
    + intros Hin. repeat (apply elem_of_cons in Hin as [Hin|Hin];
                           [discriminate Hin|]).
      by apply elem_of_nil in Hin.
Defined.

(** C4 as stated fails: the unknown rule and the unknown condition type
    both surface as [KeyError], which is no [SchemaError]. *)
Lemma from_xml_unknown_name_counterexample :
  ElementTree.get rule_both_node "rule" = Some "both" /\
  (ActivationCondition.from_xml empty_all rule_both_node).2
  = Some (KeyError "both") /\
  ElementTree.get mouse_node "condition-type" = Some "mouse" /\
  (ActivationCondition.from_xml empty_all key_and_mouse_node).2
  = Some (KeyError "mouse") /\
  forall reason subject,
    (ActivationCondition.from_xml empty_all rule_both_node).2
    <> Some (SchemaError reason subject) /\
    (ActivationCondition.from_xml empty_all key_and_mouse_node).2
    <> Some (SchemaError reason subject).
Proof. split_and!; try (vm_compute; reflexivity). intros; split; discriminate. Qed.

Lemma range_attributes_iff_axis_witness :
  (exists node,
     VJoyCondition.to_xml vjoy_axis = Ok node /\
     ElementTree.get node "range-low" = Some "-1.0" /\
     ElementTree.get node "range-high" = Some "1.0" /\
     VJoyCondition.from_xml VJoyCondition.__init__ node = Ok vjoy_axis) /\
  (exists node c',
     VJoyCondition.to_xml button_with_range = Ok node /\
     ElementTree.get node "range-low" = None /\
     ElementTree.get node "range-high" = None /\
     VJoyCondition.from_xml VJoyCondition.__init__ node = Ok c' /\
     VJoyCondition.range c'
     = (IntegralFloat.Finite 0, IntegralFloat.Finite 0)) /\
  VJoyCondition.from_xml VJoyCondition.__init__ (without_range button_node)
  = VJoyCondition.from_xml VJoyCondition.__init__ button_node /\
  is_ok (VJoyCondition.from_xml VJoyCondition.__init__
           axis_node_without_range) = false.
Proof.
  destruct range_attributes_iff_axis
    as [[_ (_ & _ & Hignore & Hneeds)] [_ (Hwritten & Hother & Haxis)]].
  split_and!.
  - destruct (Hwritten vjoy_axis InputType.JoystickAxis eq_refl)
      as (node & Hnode & Hlow & Hhigh).
    destruct (Haxis VJoyCondition.__init__ vjoy_axis eq_refl I
                eq_refl eq_refl) as (node' & Hnode' & Hread).
    rewrite Hnode in Hnode'. injection Hnode' as <-.
    exists node. split; [exact Hnode|]. by split_and!.
  - destruct (Hwritten button_with_range InputType.JoystickButton eq_refl)
      as (node & Hnode & Hlow & Hhigh).
    destruct (Hother VJoyCondition.__init__ button_with_range
                InputType.JoystickButton eq_refl)
      as (node' & c' & Hnode' & Hread & _ & Hrange); [discriminate|exact I|].
    rewrite Hnode in Hnode'. injection Hnode' as <-.
    exists node, c'. split; [exact Hnode|]. by split_and!.
  - apply Hignore. discriminate.
  - apply Hneeds; [reflexivity|by left].
Defined.


Lemma to_xml_total_witness :
  JoystickCondition.input_type JoystickCondition.__init__ = None /\
  Condition.to_xml (Condition.OfJoystick JoystickCondition.__init__)
  = Raise LookupFailure /\
  exists node,
    ActivationCondition.to_xml
      (ActivationCondition.__init__
         [key_pressed; Condition.OfJoystick JoystickCondition.__init__;
          stick_button] ActivationRule.All)
    = Ok node.
Proof.
  split; [reflexivity|].
  apply (proj2 (to_xml_total empty_all) JoystickCondition.__init__
           [key_pressed] [stick_button]).
  reflexivity.
Defined.

End Examples.

(** ** Concrete inputs for the further properties *)

Module FurtherExamples.
Import Examples.
#[local] Existing Instance integral_float.
#[local] Existing Instance parse_guid_type_error.

(** The key condition of [key_node] with stray parts: another tag, a
    [condition-type] that names another class, a child. *)
Definition odd_key_node : XmlNode :=
  mkElement "anything"
    (<["condition-type" := "joystick"]> (attrib key_node)) [mouse_node].

(** A composite with a condition that is not valid in the middle. *)
Definition all_of_three : ActivationCondition.t :=
  ActivationCondition.__init__
    [key_pressed; Condition.OfJoystick JoystickCondition.__init__;
     stick_button] ActivationRule.All.

Definition all_of_two : ActivationCondition.t :=
  ActivationCondition.__init__ [key_pressed; stick_button] ActivationRule.All.

Definition any_of_two_keys : ActivationCondition.t :=
  ActivationCondition.__init__ [key_pressed; key_pressed] ActivationRule.Any.

Lemma from_xml_ignores_the_rest_witness :
  ~ In "condition-type"
      (read_attributes (Condition.OfKeyboard KeyboardCondition.__init__)) /\
  Condition.from_xml (Condition.OfKeyboard KeyboardCondition.__init__)
    odd_key_node
  = Condition.from_xml (Condition.OfKeyboard KeyboardCondition.__init__)
      key_node.
Proof.
  assert (~ In "condition-type"
            (read_attributes
               (Condition.OfKeyboard KeyboardCondition.__init__))) as Hkey.
  { cbn. intros [H|[H|[H|[]]]]; discriminate H. }
  split; [exact Hkey|].
  exact (from_xml_ignores_the_rest
           (Condition.OfKeyboard KeyboardCondition.__init__) key_node
           "condition-type" "joystick" "anything" [mouse_node] Hkey).
Defined.

Lemma read_condition_result_witness :
  ActivationCondition.read_condition key_node = Ok key_pressed /\
  reloadable key_pressed /\
  ElementTree.get key_node "comparison"
  = Some (Condition.comparison key_pressed) /\
  (Condition.is_valid key_pressed = true
   <-> ElementTree.get key_node "comparison" <> Some "").
Proof.
  split; [reflexivity|].
  apply (read_condition_result key_node key_pressed). reflexivity.
Defined.

Lemma round_trip_drops_invalid_witness :
  Forall (fun c => Condition.is_valid c = true ->
                   reloadable c /\ range_not_nan c)
    (ActivationCondition.conditions all_of_three) /\
  ActivationCondition.to_xml all_of_three ≫= ActivationCondition.decode
  = Ok all_of_two.
Proof.
  assert (Forall (fun c => Condition.is_valid c = true ->
                           reloadable c /\ range_not_nan c)
            (ActivationCondition.conditions all_of_three)) as Ha.
  { repeat constructor; cbn; try discriminate. by exists stick_guid. }
  split; [exact Ha|].
  exact (round_trip_drops_invalid all_of_three Ha).
Defined.


Lemma round_trip_iff_storable_witness :
  range_not_nan (Condition.OfVJoy vjoy_axis) /\
  storable (Condition.OfVJoy vjoy_axis) /\
  Condition.to_xml (Condition.OfVJoy vjoy_axis)
  ≫= Condition.from_xml (new_instance (Condition.OfVJoy vjoy_axis))
  = Ok (Condition.OfVJoy vjoy_axis).
Proof.
  assert (range_not_nan (Condition.OfVJoy vjoy_axis)) as Hnan.
  { intros _. by split. }
  assert (storable (Condition.OfVJoy vjoy_axis)) as Hs.
  { split; [discriminate|]. intros Hne. by destruct Hne. }
  split; [exact Hnan|]. split; [exact Hs|].
  exact (proj2 (round_trip_iff_storable (Condition.OfVJoy vjoy_axis) Hnan)
           Hs).
Defined.

Lemma to_xml_names_own_class_witness :
  exists node,
    Condition.to_xml stick_button = Ok node /\
    tag node = "condition" /\
    children node = [] /\
    exists key,
      ElementTree.get node "condition-type" = Some key /\
      ActivationCondition.condition_lookup key
      = Ok (Condition.OfJoystick JoystickCondition.__init__).
Proof.
  destruct (Condition.to_xml stick_button) as [node|] eqn:Hnode;
    [|discriminate Hnode].
  exists node. split; [reflexivity|].
  exact (to_xml_names_own_class stick_button node Hnode).
Defined.

Lemma from_xml_stops_at_first_failure_witness :
  ElementTree.get key_and_mouse_node "rule" = Some "any" /\
  ActivationCondition.read_condition mouse_node = Raise (KeyError "mouse") /\
  ActivationCondition.from_xml
    (ActivationCondition.__init__ [stick_button] ActivationRule.All)
    key_and_mouse_node
  = (ActivationCondition.__init__ [stick_button; key_pressed]
       ActivationRule.Any,
     Some (KeyError "mouse")).
Proof.
  split; [reflexivity|]. split; [reflexivity|].
  apply (from_xml_stops_at_first_failure
           (ActivationCondition.__init__ [stick_button] ActivationRule.All)
           key_and_mouse_node "any" ActivationRule.Any
           [key_node] [] mouse_node [key_pressed] (KeyError "mouse"));
    try reflexivity.
  repeat constructor.
Defined.

Lemma from_xml_twice_witness :
  ActivationCondition.from_xml empty_all two_keys_node
  = (any_of_two_keys, None) /\
  exists new : list Condition.t,
    ActivationCondition.conditions any_of_two_keys = [] ++ new /\
    ActivationCondition.from_xml any_of_two_keys two_keys_node
    = ({| ActivationCondition.rule := ActivationRule.Any;
          ActivationCondition.conditions := [] ++ new ++ new |}, None).
Proof.
  split; [reflexivity|].
  exact (from_xml_twice empty_all any_of_two_keys two_keys_node eq_refl).
Defined.

Lemma to_xml_attributes_witness :
  exists node,
    Condition.to_xml (Condition.OfVJoy vjoy_axis) = Ok node /\
    is_Some (ElementTree.get node "range-low") /\
    ~ is_Some (ElementTree.get node "device-guid").
Proof.
  destruct (Condition.to_xml (Condition.OfVJoy vjoy_axis)) as [node|]
    eqn:Hnode; [|discriminate Hnode].
  exists node. split; [reflexivity|]. split.
  - apply (to_xml_attributes (Condition.OfVJoy vjoy_axis) node "range-low"
             Hnode). vm_compute. auto 10.
  - intros H.
    apply (to_xml_attributes (Condition.OfVJoy vjoy_axis) node "device-guid"
             Hnode) in H.
    vm_compute in H. repeat destruct H as [H|H]; discriminate H || exact H.
Defined.

Lemma from_xml_key_error_cause_witness :
  (ActivationCondition.from_xml empty_all rule_both_node).2
  = Some (KeyError "both") /\
  ((ElementTree.get rule_both_node "rule" = Some "both"
    /\ "both" <> "all" /\ "both" <> "any")
   \/
   (exists child,
      In child (ElementTree.findall rule_both_node "condition") /\
      ElementTree.get child "condition-type" = Some "both" /\
      "both" ∉ ["keyboard"; "joystick"; "vjoy"; "action"])).
Proof.
  split; [reflexivity|].
  exact (from_xml_key_error_cause empty_all rule_both_node "both" eq_refl).
Defined.

Lemma from_xml_overwrites_witness :
  new_instance key_pressed
  = new_instance (Condition.OfKeyboard KeyboardCondition.__init__) /\
  kept_range key_pressed
  = kept_range (Condition.OfKeyboard KeyboardCondition.__init__) /\
  Condition.from_xml key_pressed key_node
  = Condition.from_xml (Condition.OfKeyboard KeyboardCondition.__init__)
      key_node.
Proof.
  split; [reflexivity|]. split; [reflexivity|].
  exact (from_xml_overwrites key_pressed
           (Condition.OfKeyboard KeyboardCondition.__init__) key_node
           eq_refl eq_refl).
Defined.

(** [<note/>] *)
Definition note_node : XmlNode := mkElement "note" ∅ [].

Lemma from_xml_skips_other_children_witness :
  tag note_node <> "condition" /\
  ActivationCondition.from_xml empty_all
    (mkElement "container" (<["rule" := "any"]> ∅)
       [key_node; note_node; key_node])
  = ActivationCondition.from_xml empty_all two_keys_node.
Proof.
  split; [discriminate|].
  apply (from_xml_skips_other_children empty_all "container"
           "activation-condition" (<["rule" := "any"]> ∅)
           [key_node] [key_node] note_node).
  discriminate.
Defined.

End FurtherExamples.
